(** * Invoice reconciliation tools of [introduction_pdf.py]

    A shallow embedding of the deterministic part of the tutorial script:
    [extract_pdf_text], the pydantic invoice records, and the two agent tools
    [calculate_line_totals] and [validate_calculations].

    Python [float] is IEEE 754 binary64; it is modelled by the executable
    specification [spec_float] of the standard library at precision 53 and
    maximal exponent 1024 (round to nearest, ties to even, one NaN).  Python
    [str] is a sequence of code points, Python [dict] a finite map, and a
    raised exception is the [Raise] branch of the [result] monad. *)

From Stdlib Require Import ZArith QArith Ascii String DecimalNat SpecFloat.
From stdpp Require Import gmap strings list fin_maps.

Local Open Scope Z_scope.

(** ** Python values *)

Module Py.

(** A [str] is a sequence of Unicode code points. *)
Definition pystr : Type := list N.

(** A string literal of the source (ASCII only). *)
Definition lit (s : string) : pystr := map N_of_ascii (list_ascii_of_string s).

(** [s[:n]] *)
Definition str_prefix (n : nat) (s : pystr) : pystr := take n s.

(** [s.replace(old, new)] for one-character [old] and [new]. *)
Definition str_replace (old new : N) (s : pystr) : pystr :=
  map (fun c => if N.eqb c old then new else c) s.

Fixpoint uint_digits (u : Decimal.uint) : pystr :=
  match u with
  | Decimal.Nil => []
  | Decimal.D0 u => 48%N :: uint_digits u
  | Decimal.D1 u => 49%N :: uint_digits u
  | Decimal.D2 u => 50%N :: uint_digits u
  | Decimal.D3 u => 51%N :: uint_digits u
  | Decimal.D4 u => 52%N :: uint_digits u
  | Decimal.D5 u => 53%N :: uint_digits u
  | Decimal.D6 u => 54%N :: uint_digits u
  | Decimal.D7 u => 55%N :: uint_digits u
  | Decimal.D8 u => 56%N :: uint_digits u
  | Decimal.D9 u => 57%N :: uint_digits u
  end.

(** [str(n)] for a non-negative [int]. *)
Definition str_of_nat (n : nat) : pystr := uint_digits (Nat.to_uint n).

(** An exception object: its class, whether that class derives from
    [Exception] (and not only from [BaseException]), and [str(e)]. *)
Record pyexc : Type := mk_exc {
  exc_class : string;
  exc_is_Exception : bool;
  exc_str : pystr
}.

Definition ZeroDivisionError : pyexc :=
  mk_exc "ZeroDivisionError" true (lit "float division by zero").
Definition OverflowError : pyexc :=
  mk_exc "OverflowError" true (lit "int too large to convert to float").

(** The outcome of evaluating an expression: a value or a raised exception. *)
Inductive result (A : Type) : Type :=
  | Ok (a : A)
  | Raise (e : pyexc).
Arguments Ok {A} a.
Arguments Raise {A} e.

#[global] Instance result_ret : MRet result := @Ok.
#[global] Instance result_bind : MBind result := fun A B k c =>
  match c with
  | Ok a => k a
  | Raise e => Raise e
  end.

(** *** Floats *)

Definition float : Type := spec_float.

Definition f_add : float -> float -> float := SFadd 53 1024.
Definition f_sub : float -> float -> float := SFsub 53 1024.
Definition f_mul : float -> float -> float := SFmul 53 1024.
Definition f_div : float -> float -> float := SFdiv 53 1024.
Definition f_abs : float -> float := SFabs.
Definition f_ltb : float -> float -> bool := SFltb.
Definition f_eqb : float -> float -> bool := SFeqb.

Definition f_is_zero (x : float) : bool :=
  match x with S754_zero _ => true | _ => false end.
Definition f_is_nan (x : float) : bool :=
  match x with S754_nan => true | _ => false end.
(** [math.isfinite] *)
Definition f_is_finite (x : float) : bool :=
  match x with S754_zero _ | S754_finite _ _ _ => true | _ => false end.

(** The rational number a finite double stands for: its signed mantissa
    times two to its exponent. *)
Definition float_value (x : float) : Q :=
  match x with
  | S754_finite s m e =>
      match e with
      | Z0 => cond_Zopp s (Zpos m) # 1
      | Zpos p => cond_Zopp s (Zpos m) * 2 ^ Zpos p # 1
      | Zneg p => cond_Zopp s (Zpos m) # 2 ^ p
      end
  | _ => 0%Q
  end.

(** The nearest double to an integer, ties to even. *)
Definition f_of_Z (z : Z) : float := binary_normalize 53 1024 z 0 false.

(** The nearest double to the decimal literal [n / d] for integers [n], [d]
    that are themselves doubles: a correctly rounded quotient. *)
Definition f_of_ratio (n d : Z) : float := f_div (f_of_Z n) (f_of_Z d).

(** *** Numbers: [int] and [float] *)

Inductive pynum : Type :=
  | PyInt (z : Z)
  | PyFloat (f : float).

(** Conversion of an operand of mixed arithmetic; an [int] beyond the range of
    doubles raises [OverflowError]. *)
Definition as_float (a : pynum) : result float :=
  match a with
  | PyFloat f => Ok f
  | PyInt z =>
      match f_of_Z z with
      | S754_infinity _ => Raise OverflowError
      | f => Ok f
      end
  end.

Definition arith (fz : Z -> Z -> Z) (ff : float -> float -> float)
    (a b : pynum) : result pynum :=
  match a, b with
  | PyInt x, PyInt y => Ok (PyInt (fz x y))
  | _, _ =>
      x ← as_float a;
      y ← as_float b;
      Ok (PyFloat (ff x y))
  end.

(** [a + b], [a - b], [a * b] *)
Definition py_add : pynum -> pynum -> result pynum := arith Z.add f_add.
Definition py_sub : pynum -> pynum -> result pynum := arith Z.sub f_sub.
Definition py_mul : pynum -> pynum -> result pynum := arith Z.mul f_mul.

(** [x / b] for a float [x] ([float.__truediv__]). *)
Definition float_truediv (x : float) (b : pynum) : result pynum :=
  y ← as_float b;
  if f_is_zero y then Raise ZeroDivisionError else Ok (PyFloat (f_div x y)).

(** [abs(a)] *)
Definition py_abs (a : pynum) : pynum :=
  match a with
  | PyInt z => PyInt (Z.abs z)
  | PyFloat f => PyFloat (f_abs f)
  end.

(** Comparison of an [int] with a [float] is exact, without conversion. *)
Definition Z_compare_float (z : Z) (f : float) : option comparison :=
  match f with
  | S754_nan => None
  | S754_infinity s => Some (if s then Gt else Lt)
  | S754_zero _ => Some (z ?= 0)
  | S754_finite s m e =>
      let v := cond_Zopp s (Zpos m) in
      Some (if 0 <=? e then z ?= v * 2 ^ e else z * 2 ^ (- e) ?= v)
  end.

Definition py_compare (a b : pynum) : option comparison :=
  match a, b with
  | PyInt x, PyInt y => Some (x ?= y)
  | PyFloat x, PyFloat y => SFcompare x y
  | PyInt x, PyFloat y => Z_compare_float x y
  | PyFloat x, PyInt y => option_map CompOpp (Z_compare_float y x)
  end.

(** [a < b] and [a == b] *)
Definition py_lt (a b : pynum) : bool :=
  match py_compare a b with Some Lt => true | _ => false end.
Definition py_eq (a b : pynum) : bool :=
  match py_compare a b with Some Eq => true | _ => false end.

(** [sum(xs)]: the items are added from left to right to the start value,
    the [int] [0], as the language defines it.  (From version 3.12 on CPython
    accumulates floats with a compensation term, which can change the last
    places of a long sum; the statements below hold for the sum as defined
    here, and the sample invoices are summed alike by both.) *)
Fixpoint sum_from (acc : pynum) (xs : list pynum) : result pynum :=
  match xs with
  | [] => Ok acc
  | x :: rest => acc' ← py_add acc x; sum_from acc' rest
  end.

Definition py_sum (xs : list pynum) : result pynum := sum_from (PyInt 0) xs.

(** Values stored in the dictionaries the tools return. *)
Inductive pyval : Type :=
  | VBool (b : bool)
  | VNum (n : pynum).

End Py.

Import Py.

(** ** PDF text extraction *)

Module Pdf.

Section ExtractPdfText.

(** The file system and the [pypdf] library are outside the script: they are
    taken as given operations, each of which returns or raises. *)
Variables File Reader Page : Type.
(** [open(pdf_path, 'rb')] *)
Variable open_rb : pystr -> result File.
(** [pypdf.PdfReader(file)] *)
Variable PdfReader : File -> result Reader.
(** [pdf_reader.pages] *)
Variable pages : Reader -> result (list Page).
(** [page.extract_text()] *)
Variable extract_text : Page -> result pystr.

(** The [for] loop: [text += page.extract_text() + "\n"]. *)
Fixpoint read_pages (ps : list Page) (text : pystr) : result pystr :=
  match ps with
  | [] => Ok text
  | page :: rest =>
      t ← extract_text page;
      read_pages rest (text ++ (t ++ [10%N]))
  end.

(** The body of the [try] block. *)
Definition read_pdf (pdf_path : pystr) : result pystr :=
  file ← open_rb pdf_path;
  pdf_reader ← PdfReader file;
  ps ← pages pdf_reader;
  read_pages ps [].

(** [except Exception as e: return f"Error reading PDF: {e}"]; an exception
    that is not an [Exception] passes through the handler. *)
Definition extract_pdf_text (pdf_path : pystr) : result pystr :=
  match read_pdf pdf_path with
  | Ok text => Ok text
  | Raise e =>
      if exc_is_Exception e
      then Ok (lit "Error reading PDF: " ++ exc_str e)
      else Raise e
  end.

End ExtractPdfText.

Arguments read_pages {Page} extract_text ps text.
Arguments read_pdf {File Reader Page} open_rb PdfReader pages extract_text
  pdf_path.
Arguments extract_pdf_text {File Reader Page} open_rb PdfReader pages
  extract_text pdf_path.

End Pdf.

(** ** The invoice records and the agent tools *)

Module Invoice.

Record InvoiceHeader : Type := {
  company_name : pystr;
  company_address : pystr;
  customer_name : pystr;
  customer_address : pystr;
  invoice_number : pystr;
  invoice_date : pystr;
  customer_number : pystr
}.

Record LineItem : Type := {
  service_description : pystr;
  amount_without_vat : float;
  quantity : Z;
  total_amount : float
}.

Record InvoiceSummary : Type := {
  subtotal : float;
  vat_rate : float;
  vat_amount : float;
  gross_total : float
}.

Record StructuredInvoice : Type := {
  header : InvoiceHeader;
  line_items : list LineItem;
  summary : InvoiceSummary
}.

Record InvoiceContext : Type := {
  pdf_path : pystr;
  raw_text : pystr;
  extracted_data : StructuredInvoice;
  file_size_kb : float
}.

(** The framework's run context; the tools read only its [deps]. *)
Record RunContext : Type := { deps : InvoiceContext }.

(** The float literal [0.01]. *)
Definition float_0_01 : float := S754_finite false 5764607523034235 (-59).

(** [f"line_{i+1}_{service_key}"] with
    [service_key = item.service_description[:30].replace(" ", "_")]. *)
Definition line_key (i : nat) (item : LineItem) : pystr :=
  let service_key :=
    str_replace 32%N 95%N (str_prefix 30 (service_description item)) in
  lit "line_" ++ str_of_nat (i + 1) ++ lit "_" ++ service_key.

(** The loop over [enumerate(line_items)], from index [i] on. *)
Fixpoint line_totals_from (i : nat) (items : list LineItem)
    (totals : gmap pystr pyval) : gmap pystr pyval :=
  match items with
  | [] => totals
  | item :: rest =>
      line_totals_from (S i) rest
        (<[line_key i item := VNum (PyFloat (total_amount item))]> totals)
  end.

(** [sum(item.total_amount for item in line_items)] *)
Definition sum_total_amount (items : list LineItem) : result pynum :=
  py_sum (map (fun item => PyFloat (total_amount item)) items).

Definition calculate_line_totals (ctx : RunContext)
    : result (gmap pystr pyval) :=
  let items := line_items (extracted_data (deps ctx)) in
  let totals := line_totals_from 0 items ∅ in
  s ← sum_total_amount items;
  Ok (<[lit "subtotal" := VNum s]> totals).

Definition validate_calculations (ctx : RunContext)
    : result (gmap pystr pyval) :=
  let invoice_data := extracted_data (deps ctx) in
  calculated_subtotal ← sum_total_amount (line_items invoice_data);
  rate ← float_truediv (vat_rate (summary invoice_data)) (PyInt 100);
  calculated_vat ← py_mul calculated_subtotal rate;
  calculated_total ← py_add calculated_subtotal calculated_vat;
  d_subtotal ←
    py_sub calculated_subtotal (PyFloat (subtotal (summary invoice_data)));
  d_vat ← py_sub calculated_vat (PyFloat (vat_amount (summary invoice_data)));
  d_total ←
    py_sub calculated_total (PyFloat (gross_total (summary invoice_data)));
  let validation : gmap pystr pyval :=
    <[lit "stated_total" := VNum (PyFloat (gross_total (summary invoice_data)))]>
    (<[lit "stated_vat" := VNum (PyFloat (vat_amount (summary invoice_data)))]>
    (<[lit "stated_subtotal" := VNum (PyFloat (subtotal (summary invoice_data)))]>
    (<[lit "calculated_total" := VNum calculated_total]>
    (<[lit "calculated_vat" := VNum calculated_vat]>
    (<[lit "calculated_subtotal" := VNum calculated_subtotal]>
    (<[lit "total_correct" := VBool (py_lt (py_abs d_total) (PyFloat float_0_01))]>
    (<[lit "vat_correct" := VBool (py_lt (py_abs d_vat) (PyFloat float_0_01))]>
    (<[lit "subtotal_correct" :=
         VBool (py_lt (py_abs d_subtotal) (PyFloat float_0_01))]> ∅)))))))) in
  Ok validation.

End Invoice.

Import Invoice.

(** ** The reconciliation as the specification words it

    A second, pure reading of the three computed figures and of the tolerance
    test, in double arithmetic without the [result] monad. *)

Module Spec.

(** The sum of doubles from left to right, seeded with zero. *)
Definition sum_floats (xs : list float) : float :=
  fold_left f_add xs (S754_zero false).

Definition computed_subtotal (inv : StructuredInvoice) : float :=
  sum_floats (map total_amount (line_items inv)).

Definition computed_tax (inv : StructuredInvoice) : float :=
  f_mul (computed_subtotal inv) (f_div (vat_rate (summary inv)) (f_of_Z 100)).

Definition computed_total (inv : StructuredInvoice) : float :=
  f_add (computed_subtotal inv) (computed_tax inv).

(** [|computed - stated|] *)
Definition abs_difference (computed stated : float) : float :=
  f_abs (f_sub computed stated).

(** [|computed - stated| < 0.01] *)
Definition within_tolerance (computed stated : float) : bool :=
  f_ltb (abs_difference computed stated) float_0_01.

(** The value of an empty [sum] is the [int] [0], of any other a [float]. *)
Definition as_sum (items : list LineItem) (x : float) : pynum :=
  match items with
  | [] => PyInt 0
  | _ :: _ => PyFloat x
  end.

(** The dictionary [validate_calculations] builds, from its nine values. *)
Definition validation_dict (b_subtotal b_vat b_total : bool)
    (c_subtotal c_vat c_total : pynum) (s_subtotal s_vat s_total : float)
    : gmap pystr pyval :=
  <[lit "stated_total" := VNum (PyFloat s_total)]>
  (<[lit "stated_vat" := VNum (PyFloat s_vat)]>
  (<[lit "stated_subtotal" := VNum (PyFloat s_subtotal)]>
  (<[lit "calculated_total" := VNum c_total]>
  (<[lit "calculated_vat" := VNum c_vat]>
  (<[lit "calculated_subtotal" := VNum c_subtotal]>
  (<[lit "total_correct" := VBool b_total]>
  (<[lit "vat_correct" := VBool b_vat]>
  (<[lit "subtotal_correct" := VBool b_subtotal]> ∅)))))))).

(** What the specification says [validate] returns for an invoice. *)
Definition validate (inv : StructuredInvoice) : gmap pystr pyval :=
  let s := summary inv in
  validation_dict
    (within_tolerance (computed_subtotal inv) (subtotal s))
    (within_tolerance (computed_tax inv) (vat_amount s))
    (within_tolerance (computed_total inv) (gross_total s))
    (as_sum (line_items inv) (computed_subtotal inv))
    (PyFloat (computed_tax inv))
    (PyFloat (computed_total inv))
    (subtotal s) (vat_amount s) (gross_total s).

End Spec.

(** ** Reading a returned dictionary *)

Definition flag (d : gmap pystr pyval) (key : string) : option bool :=
  match d !! lit key with
  | Some (VBool b) => Some b
  | _ => None
  end.

Definition number (d : gmap pystr pyval) (key : string) : option pynum :=
  match d !! lit key with
  | Some (VNum n) => Some n
  | _ => None
  end.

(** All three correctness flags are [True]. *)
Definition all_correct (d : gmap pystr pyval) : Prop :=
  flag d "subtotal_correct" = Some true /\
  flag d "vat_correct" = Some true /\
  flag d "total_correct" = Some true.


(** The stated summary satisfies the three equations in the arithmetic of
    the code: with Python's [==] on doubles, the stated subtotal equals the
    left-to-right double sum of the line totals, the stated tax equals
    [subtotal * (vat_rate / 100)] and the stated gross total equals
    [subtotal + vat_amount], each evaluated in doubles. *)
Definition reconciles_in_doubles (inv : StructuredInvoice) : bool :=
  let s := summary inv in
  f_eqb (subtotal s) (Spec.computed_subtotal inv)
  && f_eqb (vat_amount s)
       (f_mul (subtotal s) (f_div (vat_rate s) (f_of_Z 100)))
  && f_eqb (gross_total s) (f_add (subtotal s) (vat_amount s)).

(** Every numeric field of the invoice is a well-formed double. *)
Definition well_formed_invoice (inv : StructuredInvoice) : bool :=
  let s := summary inv in
  forallb (valid_binary 53 1024)
    (subtotal s :: vat_rate s :: vat_amount s :: gross_total s
     :: map total_amount (line_items inv)
     ++ map amount_without_vat (line_items inv)).

(** Some numeric field that enters the reconciliation is not a number. *)
Definition has_non_numeric_field (inv : StructuredInvoice) : bool :=
  let s := summary inv in
  existsb f_is_nan (map total_amount (line_items inv))
  || f_is_nan (subtotal s) || f_is_nan (vat_rate s)
  || f_is_nan (vat_amount s) || f_is_nan (gross_total s).

(** ** Sample invoices *)

Definition sample_header : InvoiceHeader :=
  {| company_name := lit "ACME GmbH"; company_address := lit "Main St 1";
     customer_name := lit "Bob"; customer_address := lit "Side St 2";
     invoice_number := lit "INV-1"; invoice_date := lit "2024-01-01";
     customer_number := lit "C-7" |}.

Definition sample_item (desc : string) (total : float) : LineItem :=
  {| service_description := lit desc; amount_without_vat := total;
     quantity := 1; total_amount := total |}.

Definition sample_ctx (items : list LineItem) (s r v g : float) : RunContext :=
  {| deps := {| pdf_path := lit "../data/sample-invoice.pdf";
                raw_text := lit "Invoice";
                extracted_data :=
                  {| header := sample_header; line_items := items;
                     summary := {| subtotal := s; vat_rate := r;
                                   vat_amount := v; gross_total := g |} |};
                file_size_kb := f_of_Z 12 |} |}.

(** Line items 60.00 and 40.00, 20 % tax, stated 100.00 / 20.00 / 120.00. *)
Definition ctx_consistent : RunContext :=
  sample_ctx [sample_item "Basic fee" (f_of_Z 60);
              sample_item "Transaction fee T1" (f_of_Z 40)]
    (f_of_Z 100) (f_of_Z 20) (f_of_Z 20) (f_of_Z 120).

(** The same line items with a stated gross total of 121.00. *)
Definition ctx_gross_121 : RunContext :=
  sample_ctx [sample_item "Basic fee" (f_of_Z 60);
              sample_item "Transaction fee T1" (f_of_Z 40)]
    (f_of_Z 100) (f_of_Z 20) (f_of_Z 20) (f_of_Z 121).

(** One line item of 10^16 at 7 %, stated 10^16 / 7 * 10^14 / 1.07 * 10^16:
    the equations hold exactly, but [7 / 100] is not a double. *)
Definition ctx_rounding : RunContext :=
  sample_ctx [sample_item "Basic fee" (f_of_Z (10 ^ 16))]
    (f_of_Z (10 ^ 16)) (f_of_Z 7) (f_of_Z (7 * 10 ^ 14))
    (f_of_Z (107 * 10 ^ 14)).

(** Two line items of 2^1023 each: their sum overflows to infinity, and the
    stated subtotal, tax (10 %) and gross total are infinite as well. *)
Definition ctx_overflow : RunContext :=
  sample_ctx [sample_item "Basic fee" (f_of_Z (2 ^ 1023));
              sample_item "Transaction fee T1" (f_of_Z (2 ^ 1023))]
    (S754_infinity false) (f_of_Z 10) (S754_infinity false)
    (S754_infinity false).

(** Line item 0.02 against a stated subtotal of 0.01 (their difference is the
    double 0.01), no tax against a stated tax of 0.0099, and a stated gross
    total of 0.02. *)
Definition ctx_boundary : RunContext :=
  sample_ctx [sample_item "Basic fee" (f_of_ratio 2 100)]
    (f_of_ratio 1 100) (f_of_Z 0) (f_of_ratio 99 10000) (f_of_ratio 2 100).

(** A consistent invoice except that the tax rate is not a number. *)
Definition ctx_nan_rate : RunContext :=
  sample_ctx [sample_item "Basic fee" (f_of_Z 100)]
    (f_of_Z 100) S754_nan (f_of_Z 20) (f_of_Z 120).

(** Tax rate 0, one line item of 50.00, stated subtotal 50.00 and tax 0.00,
    but a stated gross total of 60.00. *)
Definition ctx_zero_rate_gross_off : RunContext :=
  sample_ctx [sample_item "Basic fee" (f_of_Z 50)]
    (f_of_Z 50) (f_of_Z 0) (f_of_Z 0) (f_of_Z 60).

(** Tax rate 0, line items 20.00 and 30.00, stated 50.00 / 0.00 / 50.00. *)
Definition ctx_zero_rate : RunContext :=
  sample_ctx [sample_item "Basic fee" (f_of_Z 20);
              sample_item "Transaction fee T1" (f_of_Z 30)]
    (f_of_Z 50) (f_of_Z 0) (f_of_Z 0) (f_of_Z 50).

(** Tax rate 0 with line items whose sum overflows. *)
Definition ctx_zero_rate_overflow : RunContext :=
  sample_ctx [sample_item "Basic fee" (f_of_Z (2 ^ 1023));
              sample_item "Transaction fee T1" (f_of_Z (2 ^ 1023))]
    (S754_infinity false) (f_of_Z 0) (f_of_Z 0) (S754_infinity false).

(** No line items, everything stated as zero. *)
Definition ctx_empty : RunContext :=
  sample_ctx [] (f_of_Z 0) (f_of_Z 20) (f_of_Z 0) (f_of_Z 0).

(** The invoice of [ctx_consistent] reached through another file and text. *)
Definition ctx_consistent_other_file : RunContext :=
  {| deps := {| pdf_path := lit "copy.pdf";
                raw_text := lit "Rechnung";
                extracted_data := extracted_data (deps ctx_consistent);
                file_size_kb := f_of_Z 99 |} |}.

(** The totals and summary of [ctx_consistent] under another header, other
    descriptions, a zero quantity and other net amounts. *)
Definition ctx_relabelled : RunContext :=
  {| deps := {| pdf_path := lit "../data/sample-invoice.pdf";
                raw_text := lit "Invoice";
                extracted_data :=
                  {| header :=
                       {| company_name := lit "Other Ltd";
                          company_address := lit "";
                          customer_name := lit "Alice";
                          customer_address := lit "";
                          invoice_number := lit "42";
                          invoice_date := lit "";
                          customer_number := lit "" |};
                     line_items :=
                       [ {| service_description := lit "Setup";
                            amount_without_vat := f_of_Z 7;
                            quantity := 0;
                            total_amount := f_of_Z 60 |};
                         {| service_description := lit "Support";
                            amount_without_vat := f_of_Z 1;
                            quantity := 3;
                            total_amount := f_of_Z 40 |} ];
                     summary := summary (extracted_data (deps ctx_consistent)) |};
                file_size_kb := f_of_Z 12 |} |}.

(** The flag [b] is the strict test of [|computed - stated|] against the
    tolerance: it holds exactly when the comparison of that difference with
    the double 0.01 is "less"; when the difference is a well-formed double
    this means it is finite and, as a rational number, below 1/100; a
    difference equal to 0.01 gives false, one equal to 0.0099 gives true. *)
Definition strict_tolerance_test (b : bool) (computed stated : float) : Prop :=
  let diff := Spec.abs_difference computed stated in
  (b = true <-> SFcompare diff float_0_01 = Some Lt) /\
  (valid_binary 53 1024 diff = true ->
   (b = true <-> f_is_finite diff = true /\ Qlt (float_value diff) (1 # 100))) /\
  (f_eqb diff float_0_01 = true -> b = false) /\
  (f_eqb diff (f_of_ratio 99 10000) = true -> b = true).

(** ** A sample file system and PDF library

    One readable two-page document, one file that is not a PDF, and no other
    file. *)

Definition FileNotFoundError : pyexc :=
  mk_exc "FileNotFoundError" true
    (lit "[Errno 2] No such file or directory: 'missing.pdf'").

Definition PdfStreamError : pyexc :=
  mk_exc "PdfStreamError" true (lit "Stream has ended unexpectedly").

Definition KeyboardInterrupt : pyexc :=
  mk_exc "KeyboardInterrupt" false (lit "").

Definition sample_open_rb (path : pystr) : result pystr :=
  if decide (path = lit "../data/sample-invoice.pdf") then Ok (lit "%PDF-1.4")
  else if decide (path = lit "notes.txt") then Ok (lit "hello")
  else Raise FileNotFoundError.

Definition sample_PdfReader (file : pystr) : result (list pystr) :=
  if decide (file = lit "%PDF-1.4")
  then Ok [lit "Invoice 123"; lit "Total 120.00"]
  else Raise PdfStreamError.

Definition sample_pages (pdf_reader : list pystr) : result (list pystr) :=
  Ok pdf_reader.

Definition sample_extract_text (page : pystr) : result pystr := Ok page.

(** A reader interrupted from the keyboard while it parses. *)
Definition interrupted_PdfReader (file : pystr) : result (list pystr) :=
  Raise KeyboardInterrupt.

(** ** String operations of the transaction lookup *)

Module PyStr.

(** [hay.startswith(needle)] *)
Fixpoint starts_with (needle hay : pystr) : bool :=
  match needle, hay with
  | [], _ => true
  | _ :: _, [] => false
  | a :: needle', b :: hay' => N.eqb a b && starts_with needle' hay'
  end.

(** [needle in hay] *)
Fixpoint str_contains (needle hay : pystr) : bool :=
  starts_with needle hay ||
  match hay with
  | [] => false
  | _ :: hay' => str_contains needle hay'
  end.

(** [s.split(sep)] for a one-character [sep], as its first piece and the
    pieces after it: there is always a first piece, and every occurrence of
    [sep] starts a new one. *)
Fixpoint split_pieces (sep : N) (s : pystr) : pystr * list pystr :=
  match s with
  | [] => ([], [])
  | c :: rest =>
      let '(piece, pieces) := split_pieces sep rest in
      if N.eqb c sep then ([], piece :: pieces) else (c :: piece, pieces)
  end.

Definition str_split (sep : N) (s : pystr) : list pystr :=
  let '(piece, pieces) := split_pieces sep s in piece :: pieces.

Section Strip.

(** [c.isspace()], the interpreter's table of white space. *)
Variable isspace : N -> bool.

(** [s.lstrip()], [s.rstrip()] and [s.strip()] *)
Fixpoint str_lstrip (s : pystr) : pystr :=
  match s with
  | [] => []
  | c :: rest => if isspace c then str_lstrip rest else s
  end.

Definition str_rstrip (s : pystr) : pystr := rev (str_lstrip (rev s)).

Definition str_strip (s : pystr) : pystr := str_rstrip (str_lstrip s).

End Strip.

End PyStr.

Import PyStr.

(** ** The transaction lookup tool *)

Module Lookup.

Section LookupTransactionDetails.

(** [str.lower] and [str.isspace] follow the interpreter's Unicode tables;
    they are taken as given. *)
Variable lower : pystr -> pystr.
Variable isspace : N -> bool.

(** A loop [for line in lines: if cond(line): details[key] = line.strip()]. *)
Fixpoint record_lines (cond : pystr -> bool) (key : pystr)
    (lines : list pystr) (details : gmap pystr pystr) : gmap pystr pystr :=
  match lines with
  | [] => details
  | line :: rest =>
      record_lines cond key rest
        (if cond line then <[key := str_strip isspace line]> details
         else details)
  end.

(** The test of the first loop. *)
Definition is_transaction_line (transaction_type line : pystr) : bool :=
  str_contains (lit "transaction fee") (lower line)
  && str_contains (lower transaction_type) (lower line).

(** The test of the second loop. *)
Definition is_basic_line (line : pystr) : bool :=
  str_contains (lit "basic fee") (lower line).

Definition lookup_transaction_details (ctx : RunContext)
    (transaction_type : pystr) : gmap pystr pystr :=
  let details : gmap pystr pystr := ∅ in
  let text_lower := lower (raw_text (deps ctx)) in
  let details :=
    if str_contains (lit "transaction") (lower transaction_type) then
      let lines := str_split 10%N (raw_text (deps ctx)) in
      record_lines (is_transaction_line transaction_type)
        (lit "found_" ++ transaction_type) lines details
    else details in
  let details :=
    if str_contains (lit "basic") (lower transaction_type) then
      let lines := str_split 10%N (raw_text (deps ctx)) in
      record_lines is_basic_line (lit "found_basic_fee") lines details
    else details in
  details.

End LookupTransactionDetails.

End Lookup.

Import Lookup.

(** ** Sample text and tables for the lookup *)

(** Lower case and white space on ASCII. *)
Definition ascii_lower (s : pystr) : pystr :=
  map (fun c => if (65 <=? c)%N && (c <=? 90)%N then (c + 32)%N else c) s.

Definition ascii_isspace (c : N) : bool :=
  ((9 <=? c)%N && (c <=? 13)%N) || ((28 <=? c)%N && (c <=? 32)%N).

(** A context whose raw text has the given lines. *)
Definition text_ctx (text : pystr) : RunContext :=
  {| deps := {| pdf_path := lit "../data/sample-invoice.pdf";
                raw_text := text;
                extracted_data := extracted_data (deps ctx_consistent);
                file_size_kb := f_of_Z 12 |} |}.

Definition sample_text : pystr :=
  lit "Invoice WMACCESS" ++ [10%N] ++
  lit "  Basic Fee wmView 130,00" ++ [10%N] ++
  lit "Transaction Fee T1  0,58 " ++ [10%N] ++
  lit "Transaction Fee T3  1,29" ++ [10%N] ++
  lit " Basic fee wmPos 50,00 " ++ [10%N].

(** The invoice of [ctx_consistent] with a line item of total 0.00 put
    between its two line items. *)
Definition ctx_with_zero_item : RunContext :=
  sample_ctx [sample_item "Basic fee" (f_of_Z 60);
              sample_item "Free trial" (f_of_Z 0);
              sample_item "Transaction fee T1" (f_of_Z 40)]
    (f_of_Z 100) (f_of_Z 20) (f_of_Z 20) (f_of_Z 120).

(** An invoice with an infinite line item. *)
Definition ctx_infinite_item : RunContext :=
  sample_ctx [sample_item "Basic fee" (f_of_Z 60);
              sample_item "Transaction fee T1" (S754_infinity false)]
    (f_of_Z 100) (f_of_Z 20) (f_of_Z 20) (f_of_Z 120).

(** A page reader that fails on the second page of the sample document. *)
Definition PdfReadError : pyexc :=
  mk_exc "PdfReadError" true (lit "Unexpected end of stream").

Definition failing_extract_text (page : pystr) : result pystr :=
  if decide (page = lit "Total 120.00") then Raise PdfReadError else Ok page.

(** Equal as numbers: the same double, or two zeros. *)
Definition same_number (a b : float) : Prop :=
  a = b \/ (f_is_zero a = true /\ f_is_zero b = true).

(** ** The tool on the interpreter's objects

    The context, the invoice, its line items and its summary are mutable
    objects that the tool reaches through references, and the dictionary it
    returns is a new object.  Here the objects live in a heap, the tool is a
    computation that is handed the heap and hands it back together with its
    outcome, and every attribute read names the object it reads. *)

Module Heap.

Definition loc : Type := positive.

(** An object of one of the script's classes, a [list], or a [dict] with
    string keys. *)
Inductive object : Type :=
  | ORunContext (deps : loc)
  | OInvoiceContext (pdf_path raw_text : pystr) (extracted_data : loc)
      (file_size_kb : float)
  | OStructuredInvoice (header line_items summary : loc)
  | OInvoiceHeader (fields : InvoiceHeader)
  | OLineItem (fields : LineItem)
  | OInvoiceSummary (fields : InvoiceSummary)
  | OList (items : list loc)
  | ODict (entries : gmap pystr pyval).

Definition heap : Type := gmap loc object.

(** A computation on the heap that returns or raises. *)
Definition M (A : Type) : Type := heap -> heap * result A.

#[global] Instance M_ret : MRet M := fun A a h => (h, Ok a).
#[global] Instance M_bind : MBind M := fun A B k c h =>
  match c h with
  | (h', Ok a) => k a h'
  | (h', Raise e) => (h', Raise e)
  end.

Definition AttributeError : pyexc :=
  mk_exc "AttributeError" true (lit "object has no such attribute").

(** A pure step. *)
Definition lift {A : Type} (r : result A) : M A := fun h => (h, r).

(** [obj.name]: the object at [l] is looked up and [proj] reads the
    attribute; an object of another class has no such attribute. *)
Definition getattr {A : Type} (proj : object -> option A) (l : loc) : M A :=
  fun h =>
    match h !! l with
    | Some o =>
        match proj o with
        | Some a => (h, Ok a)
        | None => (h, Raise AttributeError)
        end
    | None => (h, Raise AttributeError)
    end.

(** A new object at an address not in use. *)
Definition alloc (o : object) : M loc := fun h =>
  let l := fresh (dom h) in (<[l := o]> h, Ok l).

Definition deps_of (o : object) : option loc :=
  match o with ORunContext d => Some d | _ => None end.
Definition extracted_data_of (o : object) : option loc :=
  match o with OInvoiceContext _ _ d _ => Some d | _ => None end.
Definition line_items_of (o : object) : option loc :=
  match o with OStructuredInvoice _ l _ => Some l | _ => None end.
Definition summary_of (o : object) : option loc :=
  match o with OStructuredInvoice _ _ s => Some s | _ => None end.
Definition items_of (o : object) : option (list loc) :=
  match o with OList items => Some items | _ => None end.
Definition total_amount_of (o : object) : option float :=
  match o with OLineItem f => Some (total_amount f) | _ => None end.
Definition subtotal_of (o : object) : option float :=
  match o with OInvoiceSummary f => Some (subtotal f) | _ => None end.
Definition vat_rate_of (o : object) : option float :=
  match o with OInvoiceSummary f => Some (vat_rate f) | _ => None end.
Definition vat_amount_of (o : object) : option float :=
  match o with OInvoiceSummary f => Some (vat_amount f) | _ => None end.
Definition gross_total_of (o : object) : option float :=
  match o with OInvoiceSummary f => Some (gross_total f) | _ => None end.

(** [sum(item.total_amount for item in items)], from the value [acc] on. *)
Fixpoint sum_total_amount (acc : pynum) (items : list loc) : M pynum :=
  match items with
  | [] => mret acc
  | item :: rest =>
      t ← getattr total_amount_of item;
      acc' ← lift (py_add acc (PyFloat t));
      sum_total_amount acc' rest
  end.

(** [invoice_data.summary.name] *)
Definition summary_attr (proj : object -> option float) (invoice_data : loc)
    : M float :=
  s ← getattr summary_of invoice_data;
  getattr proj s.

Definition validate_calculations (ctx : loc) : M loc :=
  ctx_deps ← getattr deps_of ctx;
  invoice_data ← getattr extracted_data_of ctx_deps;
  items_list ← getattr line_items_of invoice_data;
  items ← getattr items_of items_list;
  calculated_subtotal ← sum_total_amount (PyInt 0) items;
  rate_percent ← summary_attr vat_rate_of invoice_data;
  rate ← lift (float_truediv rate_percent (PyInt 100));
  calculated_vat ← lift (py_mul calculated_subtotal rate);
  calculated_total ← lift (py_add calculated_subtotal calculated_vat);
  s_subtotal ← summary_attr subtotal_of invoice_data;
  d_subtotal ← lift (py_sub calculated_subtotal (PyFloat s_subtotal));
  s_vat ← summary_attr vat_amount_of invoice_data;
  d_vat ← lift (py_sub calculated_vat (PyFloat s_vat));
  s_total ← summary_attr gross_total_of invoice_data;
  d_total ← lift (py_sub calculated_total (PyFloat s_total));
  stated_subtotal ← summary_attr subtotal_of invoice_data;
  stated_vat ← summary_attr vat_amount_of invoice_data;
  stated_total ← summary_attr gross_total_of invoice_data;
  alloc (ODict (Spec.validation_dict
                  (py_lt (py_abs d_subtotal) (PyFloat float_0_01))
                  (py_lt (py_abs d_vat) (PyFloat float_0_01))
                  (py_lt (py_abs d_total) (PyFloat float_0_01))
                  calculated_subtotal calculated_vat calculated_total
                  stated_subtotal stated_vat stated_total)).

(** The heap holds the context [ctx] at [l]: a fully populated object graph
    whose attributes have the values of the record. *)
Definition represents (h : heap) (l : loc) (ctx : RunContext) : Prop :=
  let inv := extracted_data (deps ctx) in
  exists l_deps l_inv l_header l_list l_summary item_locs,
    h !! l = Some (ORunContext l_deps) /\
    h !! l_deps = Some (OInvoiceContext (pdf_path (deps ctx))
                          (raw_text (deps ctx)) l_inv
                          (file_size_kb (deps ctx))) /\
    h !! l_inv = Some (OStructuredInvoice l_header l_list l_summary) /\
    h !! l_header = Some (OInvoiceHeader (header inv)) /\
    h !! l_list = Some (OList item_locs) /\
    Forall2 (fun l_item item => h !! l_item = Some (OLineItem item))
      item_locs (line_items inv) /\
    h !! l_summary = Some (OInvoiceSummary (summary inv)).

End Heap.

(** The objects of [ctx_consistent]. *)
Definition sample_heap : Heap.heap :=
  let inv := extracted_data (deps ctx_consistent) in
  list_to_map
    [ (1%positive, Heap.ORunContext 2%positive);
      (2%positive, Heap.OInvoiceContext (pdf_path (deps ctx_consistent))
                     (raw_text (deps ctx_consistent)) 3%positive
                     (file_size_kb (deps ctx_consistent)));
      (3%positive, Heap.OStructuredInvoice 4%positive 5%positive 8%positive);
      (4%positive, Heap.OInvoiceHeader (header inv));
      (5%positive, Heap.OList [6%positive; 7%positive]);
      (6%positive, Heap.OLineItem (sample_item "Basic fee" (f_of_Z 60)));
      (7%positive, Heap.OLineItem
                     (sample_item "Transaction fee T1" (f_of_Z 40)));
      (8%positive, Heap.OInvoiceSummary (summary inv)) ].

(** ** Double arithmetic *)

Lemma f_of_Z_0 : f_of_Z 0 = S754_zero false.
Proof. reflexivity. Qed.

Lemma f_of_Z_100 : f_of_Z 100 = S754_finite false 7036874417766400 (-46).
Proof. reflexivity. Qed.

Lemma as_float_0 : as_float (PyInt 0) = Ok (S754_zero false).
Proof. reflexivity. Qed.

Lemma float_truediv_100 x :
  float_truediv x (PyInt 100) = Ok (PyFloat (f_div x (f_of_Z 100))).
Proof. reflexivity. Qed.

Lemma as_float_100 : as_float (PyInt 100) = Ok (f_of_Z 100).
Proof. reflexivity. Qed.

(** The literal [0.01] denotes the double nearest to 1/100. *)
Lemma float_0_01_nearest : float_0_01 = f_of_ratio 1 100.
Proof. vm_compute. reflexivity. Qed.

Lemma SFcompare_finite_Eq s1 m1 e1 s2 m2 e2 :
  SFcompare (S754_finite s1 m1 e1) (S754_finite s2 m2 e2) = Some Eq ->
  s1 = s2 /\ m1 = m2 /\ e1 = e2.
Proof.
  simpl. intros H.
  destruct s1, s2; try discriminate;
    destruct (Z.compare_spec e1 e2) as [He|He|He]; try discriminate;
    change (Pos.compare_cont Eq m1 m2) with (Pos.compare m1 m2) in H;
    destruct (Pos.compare_spec m1 m2) as [Hm|Hm|Hm]; try discriminate;
    auto.
Qed.

(** Python's [==] on doubles identifies the two zeros and nothing else. *)
Lemma f_eqb_true a b :
  f_eqb a b = true ->
  (a = b /\ f_is_nan a = false /\ f_is_zero a = false) \/
  (f_is_zero a = true /\ f_is_zero b = true).
Proof.
  unfold f_eqb, SFeqb. intros H.
  destruct a as [sa|sa| |sa ma ea], b as [sb|sb| |sb mb eb];
    try (simpl in H; discriminate); try (right; split; reflexivity).
  all: try (destruct sa; simpl in H; discriminate).
  all: try (destruct sb; simpl in H; discriminate).
  - left. destruct sa, sb; try (simpl in H; discriminate); auto.
  - left.
    destruct (SFcompare (S754_finite sa ma ea) (S754_finite sb mb eb))
      as [[| |]|] eqn:Hc; try discriminate.
    apply SFcompare_finite_Eq in Hc as (-> & -> & ->). auto.
Qed.



(** The mantissa of the literal is within half a unit of 2^59 / 100. *)
Lemma float_0_01_bracket :
  float_0_01 = S754_finite false 5764607523034235 (-59) /\
  2 * Z.abs (100 * 5764607523034235 - 2 ^ 59) <= 100.
Proof. split; [reflexivity|]. vm_compute. discriminate. Qed.

(** ** The tools, evaluated *)

Lemma sum_from_float acc items :
  sum_from (PyFloat acc) (map (fun item => PyFloat (total_amount item)) items)
  = Ok (PyFloat (fold_left f_add (map total_amount items) acc)).
Proof.
  revert acc. induction items as [|item rest IH]; intros acc; [reflexivity|].
  cbn [map sum_from fold_left]. apply IH.
Qed.

Lemma sum_total_amount_eq items :
  sum_total_amount items
  = Ok (Spec.as_sum items (Spec.sum_floats (map total_amount items))).
Proof.
  destruct items as [|item rest]; [reflexivity|].
  unfold sum_total_amount, py_sum. cbn [map sum_from].
  apply sum_from_float.
Qed.

Lemma as_float_as_sum items :
  as_float (Spec.as_sum items (Spec.sum_floats (map total_amount items)))
  = Ok (Spec.sum_floats (map total_amount items)).
Proof. destruct items; reflexivity. Qed.

Lemma arith_float_r fz ff a y x :
  as_float a = Ok x -> arith fz ff a (PyFloat y) = Ok (PyFloat (ff x y)).
Proof. intros H. destruct a; unfold arith; rewrite H; reflexivity. Qed.

Lemma py_lt_abs_float d c :
  py_lt (py_abs (PyFloat d)) (PyFloat c) = f_ltb (f_abs d) c.
Proof. reflexivity. Qed.

(** The code computes what the specification words: [validate_calculations]
    never raises and returns the dictionary [Spec.validate]. *)
Lemma validate_calculations_eq ctx :
  validate_calculations ctx = Ok (Spec.validate (extracted_data (deps ctx))).
Proof.
  unfold validate_calculations.
  set (inv := extracted_data (deps ctx)).
  rewrite sum_total_amount_eq.
  pose proof (as_float_as_sum (line_items inv)) as Hs.
  cbn [mbind result_bind].
  rewrite float_truediv_100. cbn [mbind result_bind].
  unfold py_mul, py_add, py_sub.
  rewrite (arith_float_r _ _ _ _ _ Hs). cbn [mbind result_bind].
  rewrite (arith_float_r _ _ _ _ _ Hs). cbn [mbind result_bind].
  rewrite (arith_float_r _ _ _ _ _ Hs). cbn [mbind result_bind].
  reflexivity.
Qed.

(** Reading the nine entries of the dictionary. *)
Lemma validation_dict_lookup b1 b2 b3 c1 c2 c3 s1 s2 s3 :
  let d := Spec.validation_dict b1 b2 b3 c1 c2 c3 s1 s2 s3 in
  d !! lit "subtotal_correct" = Some (VBool b1) /\
  d !! lit "vat_correct" = Some (VBool b2) /\
  d !! lit "total_correct" = Some (VBool b3) /\
  d !! lit "calculated_subtotal" = Some (VNum c1) /\
  d !! lit "calculated_vat" = Some (VNum c2) /\
  d !! lit "calculated_total" = Some (VNum c3) /\
  d !! lit "stated_subtotal" = Some (VNum (PyFloat s1)) /\
  d !! lit "stated_vat" = Some (VNum (PyFloat s2)) /\
  d !! lit "stated_total" = Some (VNum (PyFloat s3)) /\
  size d = 9%nat.
Proof. repeat split; vm_compute; reflexivity. Qed.

(** ** Claims about [validate_calculations] *)

Lemma flag_validation_dict b1 b2 b3 c1 c2 c3 s1 s2 s3 :
  let d := Spec.validation_dict b1 b2 b3 c1 c2 c3 s1 s2 s3 in
  flag d "subtotal_correct" = Some b1 /\
  flag d "vat_correct" = Some b2 /\
  flag d "total_correct" = Some b3.
Proof.
  destruct (validation_dict_lookup b1 b2 b3 c1 c2 c3 s1 s2 s3)
    as (H1 & H2 & H3 & _).
  unfold flag. cbn zeta. rewrite H1, H2, H3. auto.
Qed.

Lemma number_validation_dict b1 b2 b3 c1 c2 c3 s1 s2 s3 :
  let d := Spec.validation_dict b1 b2 b3 c1 c2 c3 s1 s2 s3 in
  number d "calculated_subtotal" = Some c1 /\
  number d "calculated_vat" = Some c2 /\
  number d "calculated_total" = Some c3 /\
  number d "stated_subtotal" = Some (PyFloat s1) /\
  number d "stated_vat" = Some (PyFloat s2) /\
  number d "stated_total" = Some (PyFloat s3).
Proof.
  destruct (validation_dict_lookup b1 b2 b3 c1 c2 c3 s1 s2 s3)
    as (_ & _ & _ & H4 & H5 & H6 & H7 & H8 & H9 & _).
  unfold number. cbn zeta. rewrite H4, H5, H6, H7, H8, H9. auto 10.
Qed.

(** The nine entries of the returned dictionary, for any invoice. *)
Lemma validate_entries (ctx : RunContext) :
  let inv := extracted_data (deps ctx) in
  let s := summary inv in
  let c_subtotal := Spec.sum_floats (map total_amount (line_items inv)) in
  let c_vat := f_mul c_subtotal (f_div (vat_rate s) (f_of_Z 100)) in
  let c_total := f_add c_subtotal c_vat in
  exists d,
    validate_calculations ctx = Ok d /\
    number d "calculated_subtotal" = Some (Spec.as_sum (line_items inv) c_subtotal) /\
    number d "calculated_vat" = Some (PyFloat c_vat) /\
    number d "calculated_total" = Some (PyFloat c_total) /\
    flag d "subtotal_correct" = Some (Spec.within_tolerance c_subtotal (subtotal s)) /\
    flag d "vat_correct" = Some (Spec.within_tolerance c_vat (vat_amount s)) /\
    flag d "total_correct" = Some (Spec.within_tolerance c_total (gross_total s)) /\
    number d "stated_subtotal" = Some (PyFloat (subtotal s)) /\
    number d "stated_vat" = Some (PyFloat (vat_amount s)) /\
    number d "stated_total" = Some (PyFloat (gross_total s)) /\
    size d = 9%nat.
Proof.
  intros inv s c_subtotal c_vat c_total.
  exists (Spec.validate inv). split; [apply validate_calculations_eq|].
  unfold Spec.validate.
  match goal with
  | |- context [Spec.validation_dict ?b1 ?b2 ?b3 ?c1 ?c2 ?c3 ?s1 ?s2 ?s3] =>
      destruct (flag_validation_dict b1 b2 b3 c1 c2 c3 s1 s2 s3)
        as (F1 & F2 & F3);
      destruct (number_validation_dict b1 b2 b3 c1 c2 c3 s1 s2 s3)
        as (N1 & N2 & N3 & N4 & N5 & N6);
      pose proof (validation_dict_lookup b1 b2 b3 c1 c2 c3 s1 s2 s3)
        as (_ & _ & _ & _ & _ & _ & _ & _ & _ & Hsize)
  end.
  repeat split; assumption.
Qed.

(** C1. For every invoice, [validate_calculations] returns a dictionary of
    nine entries: the calculated subtotal is the sum of [total_amount] over
    the line items (the [int] 0 when there are none), the calculated tax is
    that subtotal times (tax rate / 100), the calculated total is subtotal
    plus tax; the three flags are the tolerance tests of these against the
    stated figures, and the stated subtotal, tax and gross total are carried
    along. *)
Theorem C1_validate_computes_and_carries (ctx : RunContext) :
  let inv := extracted_data (deps ctx) in
  let s := summary inv in
  let c_subtotal := Spec.sum_floats (map total_amount (line_items inv)) in
  let c_vat := f_mul c_subtotal (f_div (vat_rate s) (f_of_Z 100)) in
  let c_total := f_add c_subtotal c_vat in
  exists d,
    validate_calculations ctx = Ok d /\
    number d "calculated_subtotal" = Some (Spec.as_sum (line_items inv) c_subtotal) /\
    number d "calculated_vat" = Some (PyFloat c_vat) /\
    number d "calculated_total" = Some (PyFloat c_total) /\
    flag d "subtotal_correct" = Some (Spec.within_tolerance c_subtotal (subtotal s)) /\
    flag d "vat_correct" = Some (Spec.within_tolerance c_vat (vat_amount s)) /\
    flag d "total_correct" = Some (Spec.within_tolerance c_total (gross_total s)) /\
    number d "stated_subtotal" = Some (PyFloat (subtotal s)) /\
    number d "stated_vat" = Some (PyFloat (vat_amount s)) /\
    number d "stated_total" = Some (PyFloat (gross_total s)) /\
    size d = 9%nat.
Proof. exact (validate_entries ctx). Qed.






(** The flags of the returned dictionary, for any invoice. *)
Lemma validate_flags ctx :
  let inv := extracted_data (deps ctx) in
  let s := summary inv in
  exists d,
    validate_calculations ctx = Ok d /\
    flag d "subtotal_correct"
      = Some (Spec.within_tolerance (Spec.computed_subtotal inv) (subtotal s)) /\
    flag d "vat_correct"
      = Some (Spec.within_tolerance (Spec.computed_tax inv) (vat_amount s)) /\
    flag d "total_correct"
      = Some (Spec.within_tolerance (Spec.computed_total inv) (gross_total s)).
Proof.
  intros inv s. exists (Spec.validate inv).
  split; [apply validate_calculations_eq|].
  unfold Spec.validate. fold s.
  exact (flag_validation_dict _ _ _ _ _ _ _ _ _).
Qed.

(** In the arithmetic of the code the equations alone do not suffice either:
    two finite line items whose sum overflows, with an infinite stated
    subtotal, tax and gross total, satisfy them ([inf == inf]), yet
    [abs(inf - inf) < 0.01] is [False]. *)
Lemma overflow_reconciles_in_doubles :
  reconciles_in_doubles (extracted_data (deps ctx_overflow)) = true /\
  ~ (exists d, validate_calculations ctx_overflow = Ok d /\ all_correct d).
Proof.
  split; [vm_compute; reflexivity|].
  intros (d & Hd & Hsub & _).
  destruct (validate_flags ctx_overflow) as (d' & Hd' & Hsub' & _).
  rewrite Hd in Hd'. injection Hd' as <-.
  rewrite Hsub in Hsub'. vm_compute in Hsub'. discriminate.
Qed.




Lemma digits2_pos_bounds m :
  2 ^ (Zpos (digits2_pos m) - 1) <= Zpos m < 2 ^ Zpos (digits2_pos m).
Proof.
  induction m as [m IH|m IH|]; cbn [digits2_pos].
  - rewrite Pos2Z.inj_succ.
    replace (Z.succ (Zpos (digits2_pos m)) - 1)
      with (Z.succ (Zpos (digits2_pos m) - 1)) by lia.
    rewrite !Z.pow_succ_r by lia. lia.
  - rewrite Pos2Z.inj_succ.
    replace (Z.succ (Zpos (digits2_pos m)) - 1)
      with (Z.succ (Zpos (digits2_pos m) - 1)) by lia.
    rewrite !Z.pow_succ_r by lia. lia.
  - cbn. lia.
Qed.

(** On well-formed doubles the comparison with the literal [0.01] is the
    comparison of the exact value with the decimal 1/100. *)
Lemma compare_0_01_value s m e :
  valid_binary 53 1024 (S754_finite s m e) = true ->
  SFcompare (S754_finite s m e) float_0_01 = Some Lt <->
  Qlt (float_value (S754_finite s m e)) (1 # 100).
Proof.
  unfold valid_binary, bounded, canonical_mantissa, fexp, emin.
  intros H. apply andb_prop in H as [Hc Hb].
  apply Z.eqb_eq in Hc. apply Z.leb_le in Hb.
  pose proof (digits2_pos_bounds m) as [Hlo Hhi].
  set (d := Zpos (digits2_pos m)) in *.
  assert (Hd : 0 < d) by (unfold d; lia).
  unfold float_0_01, float_value, Qlt. cbn [SFcompare Qnum Qden].
  destruct s.
  - split; [intros _|reflexivity].
    destruct e as [|p|p]; cbn [cond_Zopp Qnum Qden]; lia.
  - cbn [cond_Zopp].
    destruct (Z.compare_spec e (-59)) as [He|He|He].
    + subst e. cbn [Qnum Qden].
      rewrite Pos.compare_cont_spec, Pos2Z.inj_pow.
      change (2 ^ 59) with 576460752303423488.
      destruct (Pos.compare_spec m 5764607523034235) as [Hm|Hm|Hm];
        cbn [Pos.switch_Eq]; (split; [intros H|intros H]);
        try discriminate; try reflexivity; clear - Hm H.
      * subst m. vm_compute in H. discriminate.
      * apply Pos2Z.pos_lt_pos in Hm. lia.
      * apply Pos2Z.pos_lt_pos in Hm. lia.
    + split; [intros _|reflexivity].
      destruct e as [|p|p]; try lia. cbn [Qnum Qden].
      rewrite Pos2Z.inj_pow.
      assert (d <= 53) by lia.
      assert (2 ^ d <= 2 ^ 53) by (apply Z.pow_le_mono_r; lia).
      assert (2 ^ 60 <= 2 ^ Zpos p) by (apply Z.pow_le_mono_r; lia).
      change (2 ^ 60) with 1152921504606846976 in *.
      change (2 ^ 53) with 9007199254740992 in *. lia.
    + split; [discriminate|]. intros H. exfalso.
      assert (d = 53) by lia.
      assert (Hm : 2 ^ 52 <= Zpos m)
        by (replace 52 with (d - 1) by lia; exact Hlo).
      change (2 ^ 52) with 4503599627370496 in Hm.
      destruct e as [|p|p]; cbn [Qnum Qden] in H.
      * lia.
      * pose proof (Z.pow_pos_nonneg 2 (Zpos p)). nia.
      * rewrite Pos2Z.inj_pow in H.
        assert (2 ^ Zpos p <= 2 ^ 58) by (apply Z.pow_le_mono_r; lia).
        change (2 ^ 58) with 288230376151711744 in *. lia.
Qed.

Lemma strict_tolerance_test_within computed stated :
  strict_tolerance_test (Spec.within_tolerance computed stated)
    computed stated.
Proof.
  unfold strict_tolerance_test, Spec.within_tolerance.
  set (diff := Spec.abs_difference computed stated).
  assert (Hlt : f_ltb diff float_0_01 = true
                <-> SFcompare diff float_0_01 = Some Lt).
  { unfold f_ltb, SFltb.
    destruct (SFcompare diff float_0_01) as [[| |]|]; split; intros H;
      try discriminate; reflexivity. }
  split; [exact Hlt|]. split; [|split].
  - intros Hv. rewrite Hlt. unfold diff, Spec.abs_difference in *.
    destruct (f_sub computed stated) as [sx|sx| |sx mx ex];
      cbn [f_abs SFabs] in *.
    + split; [intros _; split; reflexivity|reflexivity].
    + split; [discriminate|intros [H _]; discriminate].
    + split; [discriminate|intros [H _]; discriminate].
    + rewrite (compare_0_01_value _ _ _ Hv). cbn [f_is_finite]. tauto.
  - unfold f_eqb, SFeqb, f_ltb, SFltb. intros H.
    destruct (SFcompare diff float_0_01) as [[| |]|];
      try discriminate; reflexivity.
  - intros H. pose proof (f_eqb_true diff (f_of_ratio 99 10000) H)
      as [(-> & _ & _)|[_ Hz]]; [|vm_compute in Hz; discriminate].
    vm_compute. reflexivity.
Qed.

(** C3. For every invoice, each of the three flags is the strict test of the
    absolute difference between the computed and the stated figure against
    the tolerance 0.01: true exactly when the difference is less than 0.01,
    false when it equals 0.01, true when it equals 0.0099. *)
Theorem C3_flags_strict_tolerance (ctx : RunContext) :
  let inv := extracted_data (deps ctx) in
  let s := summary inv in
  exists d b_subtotal b_vat b_total,
    validate_calculations ctx = Ok d /\
    flag d "subtotal_correct" = Some b_subtotal /\
    flag d "vat_correct" = Some b_vat /\
    flag d "total_correct" = Some b_total /\
    strict_tolerance_test b_subtotal (Spec.computed_subtotal inv) (subtotal s) /\
    strict_tolerance_test b_vat (Spec.computed_tax inv) (vat_amount s) /\
    strict_tolerance_test b_total (Spec.computed_total inv) (gross_total s).
Proof.
  intros inv s.
  destruct (validate_flags ctx) as (d & Hd & F1 & F2 & F3).
  exists d. do 3 eexists.
  split; [exact Hd|].
  split; [exact F1|]. split; [exact F2|]. split; [exact F3|].
  split; [|split]; apply strict_tolerance_test_within.
Qed.

Lemma C3_flags_strict_tolerance_witness :
  exists d,
    validate_calculations ctx_boundary = Ok d /\
    flag d "subtotal_correct" = Some false /\
    flag d "vat_correct" = Some true /\
    flag d "total_correct" = Some true.
Proof.
  destruct (C3_flags_strict_tolerance ctx_boundary)
    as (d & b1 & b2 & b3 & Hd & F1 & F2 & F3 & T1 & T2 & T3).
  exists d. split; [exact Hd|].
  destruct T1 as (_ & _ & Heq & _). destruct T2 as (_ & _ & _ & Hlt).
  destruct T3 as (_ & Hval & _).
  rewrite F1, F2, F3. split; [|split].
  - f_equal. apply Heq. vm_compute. reflexivity.
  - f_equal. apply Hlt. vm_compute. reflexivity.
  - f_equal. apply Hval; [vm_compute; reflexivity|].
    split; vm_compute; reflexivity.
Defined.

(** *** Not-a-number fields *)

Lemma f_add_nan_r x : f_add x S754_nan = S754_nan.
Proof. destruct x; reflexivity. Qed.

Lemma f_mul_nan_r x : f_mul x S754_nan = S754_nan.
Proof. destruct x; reflexivity. Qed.

Lemma f_is_nan_true x : f_is_nan x = true -> x = S754_nan.
Proof. destruct x; try discriminate; reflexivity. Qed.

Lemma fold_f_add_nan xs : fold_left f_add xs S754_nan = S754_nan.
Proof. induction xs as [|x xs IH]; [reflexivity|exact IH]. Qed.

Lemma fold_f_add_existsb_nan xs acc :
  existsb f_is_nan xs = true -> fold_left f_add xs acc = S754_nan.
Proof.
  revert acc. induction xs as [|x xs IH]; intros acc H; [discriminate|].
  cbn [existsb] in H. cbn [fold_left].
  apply orb_prop in H as [H|H].
  - apply f_is_nan_true in H as ->. rewrite f_add_nan_r. apply fold_f_add_nan.
  - apply IH, H.
Qed.

Lemma within_tolerance_nan_l stated :
  Spec.within_tolerance S754_nan stated = false.
Proof. reflexivity. Qed.

Lemma within_tolerance_nan_r computed :
  Spec.within_tolerance computed S754_nan = false.
Proof. destruct computed; reflexivity. Qed.

(** C4, as stated, fails: with a tax rate that is not a number the tool
    raises nothing, and in particular no [MalformedInvoice]; it returns a
    dictionary. *)
Lemma C4_counterexample_nan_rate :
  has_non_numeric_field (extracted_data (deps ctx_nan_rate)) = true /\
  ~ (exists e, validate_calculations ctx_nan_rate = Raise e /\
               exc_class e = "MalformedInvoice"%string).
Proof.
  split; [reflexivity|].
  intros (e & He & _). rewrite validate_calculations_eq in He. discriminate.
Qed.

(** C4, amended. [validate_calculations] checks no field and raises no
    error: on every invoice record (whose type already provides every numeric
    field as a float) it returns a dictionary.  When a numeric field of the
    reconciliation is not a number, the three flags are not all true; a tax
    rate that is not a number makes [vat_correct] and [total_correct] false. *)
Theorem C4_no_error_nan_fails_flags (ctx : RunContext) :
  let inv := extracted_data (deps ctx) in
  exists d,
    validate_calculations ctx = Ok d /\
    (has_non_numeric_field inv = true -> ~ all_correct d) /\
    (f_is_nan (vat_rate (summary inv)) = true ->
     flag d "vat_correct" = Some false /\ flag d "total_correct" = Some false).
Proof.
  intros inv.
  destruct (validate_flags ctx) as (d & Hd & F1 & F2 & F3).
  fold inv in F1, F2, F3.
  exists d. split; [exact Hd|].
  assert (Hrate : f_is_nan (vat_rate (summary inv)) = true ->
            Spec.computed_tax inv = S754_nan /\
            Spec.computed_total inv = S754_nan).
  { intros H. apply f_is_nan_true in H.
    unfold Spec.computed_total, Spec.computed_tax. rewrite H.
    change (f_div S754_nan (f_of_Z 100)) with S754_nan.
    rewrite f_mul_nan_r, f_add_nan_r. auto. }
  split.
  - unfold has_non_numeric_field, all_correct.
    rewrite F1, F2, F3. intros H (A1 & A2 & A3).
    injection A1 as A1. injection A2 as A2. injection A3 as A3.
    repeat (apply orb_prop in H as [H|H]).
    + apply (fold_f_add_existsb_nan _ (S754_zero false)) in H.
      unfold Spec.computed_subtotal, Spec.sum_floats in A1.
      rewrite H in A1. discriminate.
    + apply f_is_nan_true in H. rewrite H, within_tolerance_nan_r in A1.
      discriminate.
    + destruct (Hrate H) as [Ht _]. rewrite Ht in A2. discriminate.
    + apply f_is_nan_true in H. rewrite H, within_tolerance_nan_r in A2.
      discriminate.
    + apply f_is_nan_true in H. rewrite H, within_tolerance_nan_r in A3.
      discriminate.
  - intros H. destruct (Hrate H) as [Ht Hg].
    rewrite F2, F3, Ht, Hg. auto.
Qed.

Lemma C4_no_error_nan_fails_flags_witness :
  exists d,
    validate_calculations ctx_nan_rate = Ok d /\
    ~ all_correct d /\
    flag d "vat_correct" = Some false /\ flag d "total_correct" = Some false.
Proof.
  destruct (C4_no_error_nan_fails_flags ctx_nan_rate) as (d & Hd & Hn & Hr).
  exists d. split; [exact Hd|]. split.
  - apply Hn. reflexivity.
  - apply Hr. reflexivity.
Defined.

(** *** A zero tax rate *)

Lemma f_div_zero_100 x :
  f_is_zero x = true -> f_is_zero (f_div x (f_of_Z 100)) = true.
Proof. destruct x; try discriminate; reflexivity. Qed.

Lemma f_mul_finite_zero c z :
  f_is_finite c = true -> f_is_zero z = true -> f_is_zero (f_mul c z) = true.
Proof. destruct c, z; try discriminate; reflexivity. Qed.

(** Adding a product with zero to a figure does not change how the figure
    compares with a stated one. *)
Lemma within_tolerance_add_zero_product c z g :
  f_is_zero z = true ->
  Spec.within_tolerance (f_add c (f_mul c z)) g = Spec.within_tolerance c g.
Proof.
  destruct z as [sz| | |]; try discriminate. intros _.
  destruct c as [sc|sc| |sc mc ec], g as [sg|sg| |sg mg eg];
    try reflexivity;
    try (destruct sc, sz; try destruct sg; reflexivity).
Qed.

(** Stated figures that are equal compare alike with a computed one. *)
Lemma within_tolerance_eqb_stated c g s :
  f_eqb g s = true -> Spec.within_tolerance c g = Spec.within_tolerance c s.
Proof.
  intros H. destruct (f_eqb_true _ _ H) as [(<- & _ & _)|[Hg Hs]];
    [reflexivity|].
  destruct g as [sg| | |], s as [ss| | |]; try discriminate.
  destruct c as [sc|sc| |sc mc ec]; try reflexivity;
    destruct sc, sg, ss; reflexivity.
Qed.

(** With tax rate 0 and line items whose sum overflows, the calculated tax is
    not zero but not-a-number ([inf * 0.0]). *)
Lemma zero_rate_overflow_tax_nan :
  exists d,
    validate_calculations ctx_zero_rate_overflow = Ok d /\
    number d "calculated_vat" = Some (PyFloat S754_nan).
Proof.
  destruct (validate_entries ctx_zero_rate_overflow)
    as (d & Hd & _ & Hv & _).
  exists d. split; [exact Hd|]. rewrite Hv. vm_compute. reflexivity.
Qed.

(** C5, as stated, fails: with tax rate 0, a line item of 50.00, a stated
    subtotal of 50.00 and a stated gross total of 60.00 the subtotal flag is
    true and the total flag false, so the two checks are not equivalent
    ([total_correct] is measured against the stated gross total, not against
    the stated subtotal). *)
Lemma C5_counterexample_gross_off :
  f_is_zero (vat_rate (summary (extracted_data (deps ctx_zero_rate_gross_off))))
    = true /\
  exists d,
    validate_calculations ctx_zero_rate_gross_off = Ok d /\
    flag d "subtotal_correct" = Some true /\
    flag d "total_correct" = Some false.
Proof.
  split; [reflexivity|].
  destruct (validate_flags ctx_zero_rate_gross_off) as (d & Hd & F1 & _ & F3).
  exists d. split; [exact Hd|]. rewrite F1, F3.
  split; vm_compute; reflexivity.
Qed.

(** C5, amended. For every invoice whose tax rate is 0: the calculated tax is
    0 whenever the calculated subtotal is finite; [total_correct] is the
    tolerance test of the calculated subtotal against the stated gross total,
    hence it agrees with [subtotal_correct] whenever the stated gross total
    equals the stated subtotal; and with line items totaling 50.00, a stated
    subtotal of 50.00, a stated tax of 0.00 and a stated gross total of 50.00
    all three flags are true. *)
Theorem C5_zero_rate (ctx : RunContext) :
  let inv := extracted_data (deps ctx) in
  let s := summary inv in
  f_is_zero (vat_rate s) = true ->
  exists d t,
    validate_calculations ctx = Ok d /\
    number d "calculated_vat" = Some (PyFloat t) /\
    (f_is_finite (Spec.computed_subtotal inv) = true -> f_is_zero t = true) /\
    flag d "total_correct"
      = Some (Spec.within_tolerance (Spec.computed_subtotal inv) (gross_total s)) /\
    (f_eqb (gross_total s) (subtotal s) = true ->
     flag d "total_correct" = flag d "subtotal_correct") /\
    (f_eqb (Spec.computed_subtotal inv) (f_of_Z 50) = true ->
     f_eqb (subtotal s) (f_of_Z 50) = true ->
     f_is_zero (vat_amount s) = true ->
     f_eqb (gross_total s) (f_of_Z 50) = true ->
     all_correct d).
Proof.
  intros inv s Hrate.
  destruct (validate_entries ctx)
    as (d & Hd & _ & Hv & _ & F1 & F2 & F3 & _).
  fold inv in Hv, F1, F2, F3. fold s in Hv, F1, F2, F3.
  fold (Spec.computed_subtotal inv) in Hv, F1, F2, F3.
  pose proof (f_div_zero_100 _ Hrate) as Hq.
  set (q := f_div (vat_rate s) (f_of_Z 100)) in *.
  set (c := Spec.computed_subtotal inv) in *.
  assert (Htot : flag d "total_correct"
                 = Some (Spec.within_tolerance c (gross_total s))).
  { rewrite F3. f_equal. apply within_tolerance_add_zero_product, Hq. }
  exists d, (f_mul c q).
  split; [exact Hd|]. split; [exact Hv|].
  split; [intros Hf; apply f_mul_finite_zero; assumption|].
  split; [exact Htot|].
  split.
  - intros Hg. rewrite Htot, F1. f_equal.
    apply within_tolerance_eqb_stated, Hg.
  - intros Hc Hs Hva Hg.
    destruct (f_eqb_true _ _ Hc) as [(Hc' & _ & _)|[_ Hz]];
      [|discriminate].
    destruct (f_eqb_true _ _ Hs) as [(Hs' & _ & _)|[_ Hz]];
      [|discriminate].
    destruct (f_eqb_true _ _ Hg) as [(Hg' & _ & _)|[_ Hz]];
      [|discriminate].
    unfold all_correct. rewrite Htot, F1, F2, Hc', Hs', Hg'.
    destruct q as [sq| | |]; try discriminate.
    destruct (vat_amount s) as [sv| | |]; try discriminate.
    destruct sq, sv; repeat split; vm_compute; reflexivity.
Qed.

Lemma C5_zero_rate_witness :
  f_is_zero (vat_rate (summary (extracted_data (deps ctx_zero_rate)))) = true /\
  exists d,
    validate_calculations ctx_zero_rate = Ok d /\
    number d "calculated_vat" = Some (PyFloat (S754_zero false)) /\
    flag d "total_correct" = flag d "subtotal_correct" /\
    all_correct d.
Proof.
  split; [reflexivity|].
  destruct (C5_zero_rate ctx_zero_rate eq_refl)
    as (d & t & Hd & Hv & Hz & _ & Heq & Hall).
  exists d. split; [exact Hd|]. split; [|split].
  - rewrite Hv. specialize (Hz eq_refl).
    destruct (validate_entries ctx_zero_rate)
      as (d' & Hd' & _ & Hv' & _).
    rewrite Hd in Hd'. injection Hd' as <-. rewrite Hv in Hv'.
    injection Hv' as ->. vm_compute. reflexivity.
  - apply Heq. vm_compute. reflexivity.
  - apply Hall; vm_compute; reflexivity.
Defined.

(** *** No line items *)

(** C6. For every invoice without line items the calculated subtotal is 0,
    and if the stated subtotal is 0 then [subtotal_correct] is true. *)
Theorem C6_empty_invoice (ctx : RunContext) :
  let inv := extracted_data (deps ctx) in
  line_items inv = [] ->
  exists d,
    validate_calculations ctx = Ok d /\
    number d "calculated_subtotal" = Some (PyInt 0) /\
    (f_is_zero (subtotal (summary inv)) = true ->
     flag d "subtotal_correct" = Some true).
Proof.
  intros inv Hnil.
  destruct (validate_entries ctx) as (d & Hd & Hc & _ & _ & F1 & _).
  fold inv in Hc, F1. rewrite Hnil in Hc, F1.
  exists d. split; [exact Hd|]. split; [exact Hc|].
  intros Hz. rewrite F1.
  destruct (subtotal (summary inv)) as [sz| | |]; try discriminate.
  destruct sz; reflexivity.
Qed.

Lemma C6_empty_invoice_witness :
  line_items (extracted_data (deps ctx_empty)) = [] /\
  f_is_zero (subtotal (summary (extracted_data (deps ctx_empty)))) = true /\
  exists d,
    validate_calculations ctx_empty = Ok d /\
    number d "calculated_subtotal" = Some (PyInt 0) /\
    flag d "subtotal_correct" = Some true.
Proof.
  split; [reflexivity|]. split; [reflexivity|].
  destruct (C6_empty_invoice ctx_empty eq_refl) as (d & Hd & Hc & Hf).
  exists d. split; [exact Hd|]. split; [exact Hc|].
  apply Hf. reflexivity.
Defined.

(** *** Purity *)

(** On every context the tool returns a dictionary and raises nothing, and
    the dictionary is a function of the extracted invoice alone: a context
    reached through another file, text or size gives the same one. *)
Lemma validate_depends_on_invoice_only (ctx : RunContext) :
  exists d,
    validate_calculations ctx = Ok d /\
    forall ctx',
      extracted_data (deps ctx') = extracted_data (deps ctx) ->
      validate_calculations ctx' = Ok d.
Proof.
  exists (Spec.validate (extracted_data (deps ctx))).
  split; [apply validate_calculations_eq|].
  intros ctx' H. rewrite validate_calculations_eq, H. reflexivity.
Qed.

(** *** What the result depends on *)

Lemma as_sum_map_total_amount items1 items2 x :
  map total_amount items1 = map total_amount items2 ->
  Spec.as_sum items1 x = Spec.as_sum items2 x.
Proof. destruct items1, items2; try discriminate; reflexivity. Qed.

(** C9. Two invoices with the same sequence of line-item [total_amount]
    values and the same summary get identical results: header, descriptions,
    quantities and [amount_without_vat] play no part. *)
Theorem C9_validate_depends_on_totals_and_summary (ctx1 ctx2 : RunContext) :
  let inv1 := extracted_data (deps ctx1) in
  let inv2 := extracted_data (deps ctx2) in
  map total_amount (line_items inv1) = map total_amount (line_items inv2) ->
  summary inv1 = summary inv2 ->
  validate_calculations ctx1 = validate_calculations ctx2.
Proof.
  intros inv1 inv2 Hitems Hsum.
  rewrite !validate_calculations_eq. fold inv1 inv2. f_equal.
  unfold Spec.validate, Spec.computed_total, Spec.computed_tax,
    Spec.computed_subtotal.
  rewrite Hitems, Hsum.
  rewrite (as_sum_map_total_amount _ _ _ Hitems). reflexivity.
Qed.

Lemma C9_validate_depends_on_totals_and_summary_witness :
  line_items (extracted_data (deps ctx_consistent))
    <> line_items (extracted_data (deps ctx_relabelled)) /\
  header (extracted_data (deps ctx_consistent))
    <> header (extracted_data (deps ctx_relabelled)) /\
  map total_amount (line_items (extracted_data (deps ctx_consistent)))
    = map total_amount (line_items (extracted_data (deps ctx_relabelled))) /\
  summary (extracted_data (deps ctx_consistent))
    = summary (extracted_data (deps ctx_relabelled)) /\
  validate_calculations ctx_consistent = validate_calculations ctx_relabelled.
Proof.
  split; [intros H; vm_compute in H; discriminate|].
  split; [intros H; vm_compute in H; discriminate|].
  split; [reflexivity|]. split; [reflexivity|].
  apply (C9_validate_depends_on_totals_and_summary ctx_consistent ctx_relabelled);
    reflexivity.
Defined.

(** ** Claims about [extract_pdf_text] *)

Section ExtractPdfTextFacts.

Variables File Reader Page : Type.
Variable open_rb : pystr -> result File.
Variable PdfReader : File -> result Reader.
Variable pages : Reader -> result (list Page).
Variable extract_text : Page -> result pystr.

(** Every failure of the file system and of the PDF library is an ordinary
    error, an instance of [Exception]: an I/O error or a parse error. *)
Hypothesis open_rb_fails : forall path e,
  open_rb path = Raise e -> exc_is_Exception e = true.
Hypothesis PdfReader_fails : forall file e,
  PdfReader file = Raise e -> exc_is_Exception e = true.
Hypothesis pages_fails : forall pdf_reader e,
  pages pdf_reader = Raise e -> exc_is_Exception e = true.
Hypothesis extract_text_fails : forall page e,
  extract_text page = Raise e -> exc_is_Exception e = true.

Lemma read_pages_fails ps text e :
  Pdf.read_pages extract_text ps text = Raise e ->
  exc_is_Exception e = true.
Proof.
  revert text. induction ps as [|page rest IH]; intros text H.
  - discriminate.
  - cbn [Pdf.read_pages] in H.
    destruct (extract_text page) as [t|e'] eqn:Ht;
      cbn [mbind result_bind] in H.
    + exact (IH _ H).
    + injection H as <-. exact (extract_text_fails _ _ Ht).
Qed.

Lemma read_pdf_fails path e :
  Pdf.read_pdf open_rb PdfReader pages extract_text path = Raise e ->
  exc_is_Exception e = true.
Proof.
  unfold Pdf.read_pdf. intros H.
  destruct (open_rb path) as [file|e1] eqn:H1;
    cbn [mbind result_bind] in H;
    [|injection H as <-; exact (open_rb_fails _ _ H1)].
  destruct (PdfReader file) as [pdf_reader|e2] eqn:H2;
    cbn [mbind result_bind] in H;
    [|injection H as <-; exact (PdfReader_fails _ _ H2)].
  destruct (pages pdf_reader) as [ps|e3] eqn:H3;
    cbn [mbind result_bind] in H;
    [|injection H as <-; exact (pages_fails _ _ H3)].
  exact (read_pages_fails _ _ _ H).
Qed.

(** C8. For every path, [extract_pdf_text] returns a string: the extracted
    text when reading succeeds, and on any I/O or parse failure the string
    "Error reading PDF: " followed by the error's text; it raises nothing. *)
Theorem C8_extract_pdf_text_returns_string (pdf_path : pystr) :
  exists s,
    Pdf.extract_pdf_text open_rb PdfReader pages extract_text pdf_path = Ok s /\
    (forall text,
       Pdf.read_pdf open_rb PdfReader pages extract_text pdf_path = Ok text ->
       s = text) /\
    (forall e,
       Pdf.read_pdf open_rb PdfReader pages extract_text pdf_path = Raise e ->
       s = lit "Error reading PDF: " ++ exc_str e).
Proof.
  unfold Pdf.extract_pdf_text.
  destruct (Pdf.read_pdf open_rb PdfReader pages extract_text pdf_path)
    as [text|e] eqn:Hr.
  - exists text. split; [reflexivity|]. split.
    + intros t Ht. injection Ht as <-. reflexivity.
    + intros e He. discriminate.
  - rewrite (read_pdf_fails _ _ Hr).
    exists (lit "Error reading PDF: " ++ exc_str e).
    split; [reflexivity|]. split.
    + intros t Ht. discriminate.
    + intros e' He. injection He as <-. reflexivity.
Qed.

End ExtractPdfTextFacts.

Lemma sample_world_fails_ordinarily :
  (forall path e, sample_open_rb path = Raise e -> exc_is_Exception e = true) /\
  (forall file e, sample_PdfReader file = Raise e -> exc_is_Exception e = true) /\
  (forall r e, sample_pages r = Raise e -> exc_is_Exception e = true) /\
  (forall page e, sample_extract_text page = Raise e -> exc_is_Exception e = true).
Proof.
  unfold sample_open_rb, sample_PdfReader, sample_pages, sample_extract_text.
  repeat split; intros x e H; repeat case_decide; try discriminate;
    injection H as <-; reflexivity.
Qed.

Lemma C8_extract_pdf_text_returns_string_witness :
  (exists s,
     Pdf.extract_pdf_text sample_open_rb sample_PdfReader sample_pages
       sample_extract_text (lit "missing.pdf") = Ok s /\
     s = lit "Error reading PDF: [Errno 2] No such file or directory: 'missing.pdf'") /\
  (exists s,
     Pdf.extract_pdf_text sample_open_rb sample_PdfReader sample_pages
       sample_extract_text (lit "notes.txt") = Ok s /\
     s = lit "Error reading PDF: Stream has ended unexpectedly") /\
  (exists s,
     Pdf.extract_pdf_text sample_open_rb sample_PdfReader sample_pages
       sample_extract_text (lit "../data/sample-invoice.pdf") = Ok s /\
     s = lit "Invoice 123" ++ [10%N] ++ lit "Total 120.00" ++ [10%N]).
Proof.
  destruct sample_world_fails_ordinarily as (H1 & H2 & H3 & H4).
  pose proof (C8_extract_pdf_text_returns_string _ _ _ sample_open_rb
    sample_PdfReader sample_pages sample_extract_text H1 H2 H3 H4) as C.
  split; [|split].
  - destruct (C (lit "missing.pdf")) as (s & Hs & _ & He).
    exists s. split; [exact Hs|].
    rewrite (He FileNotFoundError); [|vm_compute]; reflexivity.
  - destruct (C (lit "notes.txt")) as (s & Hs & _ & He).
    exists s. split; [exact Hs|].
    rewrite (He PdfStreamError); [|vm_compute]; reflexivity.
  - destruct (C (lit "../data/sample-invoice.pdf")) as (s & Hs & Ht & _).
    exists s. split; [exact Hs|].
    apply Ht. vm_compute. reflexivity.
Defined.

(** An exception outside [Exception] is not caught by the handler. *)
Lemma extract_pdf_text_interrupt_propagates :
  Pdf.extract_pdf_text sample_open_rb interrupted_PdfReader sample_pages
    sample_extract_text (lit "notes.txt") = Raise KeyboardInterrupt.
Proof. vm_compute. reflexivity. Qed.

(** ** Claims about [calculate_line_totals] *)

Example str_of_nat_12 : str_of_nat 12 = lit "12".
Proof. reflexivity. Qed.

(** A description longer than 30 characters is cut, and its spaces become
    underscores. *)
Example line_key_long_description :
  line_key 9 (sample_item "Transaction fee for payment type T3" (f_of_Z 5))
  = lit "line_10_Transaction_fee_for_payment_ty".
Proof. vm_compute. reflexivity. Qed.

(** The digits of a number end where the underscore begins. *)
Lemma uint_digits_sep u v r1 r2 :
  uint_digits u ++ 95%N :: r1 = uint_digits v ++ 95%N :: r2 -> u = v.
Proof.
  revert v. induction u as [|u IH|u IH|u IH|u IH|u IH|u IH|u IH|u IH|u IH|u IH];
    intros [|v|v|v|v|v|v|v|v|v|v] H; cbn in H; try discriminate;
    try reflexivity; injection H as H; f_equal; exact (IH _ H).
Qed.

Lemma str_of_nat_sep n m r1 r2 :
  str_of_nat n ++ 95%N :: r1 = str_of_nat m ++ 95%N :: r2 -> n = m.
Proof.
  intros H. apply uint_digits_sep in H.
  rewrite <- (DecimalNat.Unsigned.of_to n), <- (DecimalNat.Unsigned.of_to m).
  f_equal. exact H.
Qed.

(** Line items at different positions get different keys. *)
Lemma line_key_inj i j a b : line_key i a = line_key j b -> i = j.
Proof.
  unfold line_key. intros H.
  apply app_inv_head in H.
  change (lit "_") with [95%N] in H. cbn [app] in H.
  apply str_of_nat_sep in H. lia.
Qed.

Lemma line_key_not_subtotal i a : line_key i a <> lit "subtotal".
Proof.
  unfold line_key. intros H.
  change (lit "line_") with [108; 105; 110; 101; 95]%N in H.
  change (lit "subtotal") with [115; 117; 98; 116; 111; 116; 97; 108]%N in H.
  discriminate.
Qed.

(** Keys the loop does not write keep their entry. *)
Lemma line_totals_from_other i items totals k :
  (forall j item, items !! j = Some item -> line_key (i + j) item <> k) ->
  line_totals_from i items totals !! k = totals !! k.
Proof.
  revert i totals. induction items as [|item rest IH]; intros i totals H;
    [reflexivity|].
  cbn [line_totals_from]. rewrite IH.
  - apply lookup_insert_ne. specialize (H 0%nat item eq_refl).
    rewrite Nat.add_0_r in H. exact H.
  - intros j it Hj. specialize (H (S j) it Hj).
    rewrite Nat.add_succ_r in H. exact H.
Qed.

(** The entry of the line item at position [j]. *)
Lemma line_totals_from_item i items totals j item :
  items !! j = Some item ->
  line_totals_from i items totals !! line_key (i + j) item
  = Some (VNum (PyFloat (total_amount item))).
Proof.
  revert i totals j. induction items as [|first rest IH];
    intros i totals j Hj; [discriminate|].
  cbn [line_totals_from]. destruct j as [|j].
  - injection Hj as ->. rewrite Nat.add_0_r.
    rewrite line_totals_from_other; [apply lookup_insert_eq|].
    intros j it _ Heq. apply line_key_inj in Heq. lia.
  - rewrite Nat.add_succ_r. apply (IH (S i)). exact Hj.
Qed.

(** Every entry was there before or belongs to a line item. *)
Lemma line_totals_from_inv i items totals k v :
  line_totals_from i items totals !! k = Some v ->
  totals !! k = Some v \/
  exists j item, items !! j = Some item /\ k = line_key (i + j) item.
Proof.
  revert i totals. induction items as [|first rest IH]; intros i totals H;
    [left; exact H|].
  cbn [line_totals_from] in H. apply IH in H as [H|(j & it & Hj & ->)].
  - destruct (decide (line_key i first = k)) as [<-|Hne].
    + right. exists 0%nat, first. rewrite Nat.add_0_r. auto.
    + rewrite lookup_insert_ne in H by exact Hne. left. exact H.
  - right. exists (S j), it. rewrite Nat.add_succ_r. auto.
Qed.

(** The loop adds one entry per line item. *)
Lemma line_totals_from_size i items totals :
  (forall j item, totals !! line_key (i + j) item = None) ->
  size (line_totals_from i items totals) = (length items + size totals)%nat.
Proof.
  revert i totals. induction items as [|first rest IH]; intros i totals H;
    [reflexivity|].
  cbn [line_totals_from length]. rewrite IH.
  - rewrite map_size_insert_None; [lia|].
    specialize (H 0%nat first). rewrite Nat.add_0_r in H. exact H.
  - intros j it. rewrite lookup_insert_ne.
    + specialize (H (S j) it). rewrite Nat.add_succ_r in H. exact H.
    + intros Heq. apply line_key_inj in Heq. lia.
Qed.

(** C10. For every invoice, [calculate_line_totals] returns a mapping with
    exactly one entry per line item, whose key is made of the 1-based
    position and the first 30 characters of the description with spaces
    replaced by underscores and whose value is the item's [total_amount],
    plus the entry "subtotal" holding the sum of all [total_amount]. *)
Theorem C10_calculate_line_totals_entries (ctx : RunContext) :
  let items := line_items (extracted_data (deps ctx)) in
  exists d,
    calculate_line_totals ctx = Ok d /\
    size d = S (length items) /\
    (forall i item,
       items !! i = Some item ->
       d !! (lit "line_" ++ str_of_nat (i + 1) ++ lit "_"
             ++ str_replace 32%N 95%N (take 30 (service_description item)))
       = Some (VNum (PyFloat (total_amount item)))) /\
    d !! lit "subtotal"
      = Some (VNum (Spec.as_sum items (Spec.sum_floats (map total_amount items)))) /\
    (forall k v,
       d !! k = Some v ->
       k = lit "subtotal" \/
       exists i item, items !! i = Some item /\ k = line_key i item).
Proof.
  intros items. unfold calculate_line_totals. fold items.
  rewrite sum_total_amount_eq. cbn [mbind result_bind].
  eexists. split; [reflexivity|].
  split; [|split; [|split]].
  - rewrite map_size_insert_None.
    + rewrite line_totals_from_size; [rewrite map_size_empty; lia|].
      intros j it. apply lookup_empty.
    + rewrite line_totals_from_other; [apply lookup_empty|].
      intros j it _. apply line_key_not_subtotal.
  - intros i item Hi.
    rewrite lookup_insert_ne by (apply not_eq_sym, line_key_not_subtotal).
    exact (line_totals_from_item 0 items ∅ i item Hi).
  - apply lookup_insert_eq.
  - intros k v H.
    destruct (decide (lit "subtotal" = k)) as [<-|Hne]; [left; reflexivity|].
    rewrite lookup_insert_ne in H by exact Hne.
    apply line_totals_from_inv in H as [H|(j & it & Hj & ->)].
    + rewrite lookup_empty in H. discriminate.
    + right. exists j, it. auto.
Qed.

Lemma C10_calculate_line_totals_entries_witness :
  exists d,
    calculate_line_totals ctx_consistent = Ok d /\
    size d = 3%nat /\
    d !! lit "line_1_Basic_fee" = Some (VNum (PyFloat (f_of_Z 60))) /\
    d !! lit "line_2_Transaction_fee_T1" = Some (VNum (PyFloat (f_of_Z 40))) /\
    d !! lit "subtotal" = Some (VNum (PyFloat (f_of_Z 100))).
Proof.
  destruct (C10_calculate_line_totals_entries ctx_consistent)
    as (d & Hd & Hsize & Hitem & Hsub & _).
  exists d. split; [exact Hd|]. split; [exact Hsize|].
  split; [|split].
  - exact (Hitem 0%nat _ eq_refl).
  - exact (Hitem 1%nat _ eq_refl).
  - rewrite Hsub. vm_compute. reflexivity.
Defined.

(** ** The sample invoices *)

Lemma sample_invoices_well_formed :
  forallb (fun ctx => well_formed_invoice (extracted_data (deps ctx)))
    [ctx_consistent; ctx_gross_121; ctx_rounding; ctx_overflow; ctx_boundary; ctx_nan_rate;
     ctx_zero_rate_gross_off; ctx_zero_rate; ctx_zero_rate_overflow;
     ctx_empty; ctx_consistent_other_file; ctx_relabelled] = true.
Proof. vm_compute. reflexivity. Qed.

(** Line items totaling 100.00 at 20 %, stated 100.00 / 20.00 / 120.00: all
    three flags are true. *)
Lemma example_consistent_invoice :
  exists d,
    validate_calculations ctx_consistent = Ok d /\
    flag d "subtotal_correct" = Some true /\
    flag d "vat_correct" = Some true /\
    flag d "total_correct" = Some true.
Proof.
  destruct (validate_flags ctx_consistent) as (d & Hd & F1 & F2 & F3).
  exists d. split; [exact Hd|]. rewrite F1, F2, F3.
  repeat split; vm_compute; reflexivity.
Qed.

(** The same with a stated gross total of 121.00: only [total_correct] is
    false. *)
Lemma example_gross_total_off :
  exists d,
    validate_calculations ctx_gross_121 = Ok d /\
    flag d "subtotal_correct" = Some true /\
    flag d "vat_correct" = Some true /\
    flag d "total_correct" = Some false.
Proof.
  destruct (validate_flags ctx_gross_121) as (d & Hd & F1 & F2 & F3).
  exists d. split; [exact Hd|]. rewrite F1, F2, F3.
  repeat split; vm_compute; reflexivity.
Qed.


(** ** More about [extract_pdf_text] *)

Section ExtractPdfTextPages.

Variables File Reader Page : Type.
Variable open_rb : pystr -> result File.
Variable PdfReader : File -> result Reader.
Variable pages : Reader -> result (list Page).
Variable extract_text : Page -> result pystr.

Lemma read_pages_all_ok ps ts text :
  Forall2 (fun page t => extract_text page = Ok t) ps ts ->
  Pdf.read_pages extract_text ps text
  = Ok (text ++ concat (map (fun t => t ++ [10%N]) ts)).
Proof.
  intros H. revert text.
  induction H as [|page t ps ts Hp _ IH]; intros text; cbn [Pdf.read_pages].
  - rewrite app_nil_r. reflexivity.
  - rewrite Hp. cbn [mbind result_bind map concat].
    rewrite IH, <- app_assoc. reflexivity.
Qed.

Lemma read_pages_first_failure ps1 page ps2 e text :
  Forall (fun p => exists t, extract_text p = Ok t) ps1 ->
  extract_text page = Raise e ->
  Pdf.read_pages extract_text (ps1 ++ page :: ps2) text = Raise e.
Proof.
  intros H He. revert text.
  induction H as [|p ps1 [t Ht] _ IH]; intros text; cbn [Pdf.read_pages app].
  - rewrite He. reflexivity.
  - rewrite Ht. cbn [mbind result_bind]. apply IH.
Qed.

Lemma read_pages_shape ps text s :
  Pdf.read_pages extract_text ps text = Ok s ->
  s = text \/ last s = Some 10%N.
Proof.
  revert text. induction ps as [|page rest IH]; intros text H;
    cbn [Pdf.read_pages] in H.
  - injection H as <-. left. reflexivity.
  - destruct (extract_text page) as [t|e]; cbn [mbind result_bind] in H;
      [|discriminate].
    right. destruct (IH _ H) as [->|Hl]; [|exact Hl].
    rewrite app_assoc. apply last_snoc.
Qed.

(** X1. When the file opens, the reader parses it and every page yields its
    text, [extract_pdf_text] returns the page texts in order, each followed
    by a newline; its length is the total length of the page texts plus the
    number of pages, and a document without pages gives the empty string. *)
Theorem X1_extract_pdf_text_joins_pages (pdf_path : pystr) (file : File)
    (pdf_reader : Reader) (ps : list Page) (ts : list pystr) :
  open_rb pdf_path = Ok file ->
  PdfReader file = Ok pdf_reader ->
  pages pdf_reader = Ok ps ->
  Forall2 (fun page t => extract_text page = Ok t) ps ts ->
  exists s,
    Pdf.extract_pdf_text open_rb PdfReader pages extract_text pdf_path = Ok s /\
    s = concat (map (fun t => t ++ [10%N]) ts) /\
    length s = (list_sum (map (@length N) ts) + length ps)%nat /\
    (ps = [] -> s = []).
Proof.
  intros Ho Hr Hp Hts. eexists. split; [|split; [reflexivity|split]].
  - unfold Pdf.extract_pdf_text, Pdf.read_pdf.
    rewrite Ho. cbn [mbind result_bind]. rewrite Hr. cbn [mbind result_bind].
    rewrite Hp. cbn [mbind result_bind].
    rewrite (read_pages_all_ok _ _ _ Hts). reflexivity.
  - clear Hp. induction Hts as [|page t ps' ts' _ _ IH]; [reflexivity|].
    cbn [map concat list_sum length]. rewrite !length_app, IH.
    cbn [length]. change (list_sum (length t :: map length ts'))
      with (length t + list_sum (map length ts'))%nat. lia.
  - intros ->. inversion Hts. reflexivity.
Qed.

(** X2. The first page whose text extraction fails decides the result: the
    text of the pages before it is dropped, the pages after it are not read,
    and the returned string is "Error reading PDF: " followed by that
    error's text. *)
Theorem X2_extract_pdf_text_first_failing_page (pdf_path : pystr) (file : File)
    (pdf_reader : Reader) (ps1 ps2 : list Page) (page : Page) (e : pyexc) :
  open_rb pdf_path = Ok file ->
  PdfReader file = Ok pdf_reader ->
  pages pdf_reader = Ok (ps1 ++ page :: ps2) ->
  Forall (fun p => exists t, extract_text p = Ok t) ps1 ->
  extract_text page = Raise e ->
  exc_is_Exception e = true ->
  Pdf.extract_pdf_text open_rb PdfReader pages extract_text pdf_path
  = Ok (lit "Error reading PDF: " ++ exc_str e).
Proof.
  intros Ho Hr Hp Hok He Hexc.
  unfold Pdf.extract_pdf_text, Pdf.read_pdf.
  rewrite Ho. cbn [mbind result_bind]. rewrite Hr. cbn [mbind result_bind].
  rewrite Hp. cbn [mbind result_bind].
  rewrite (read_pages_first_failure _ _ _ _ _ Hok He), Hexc. reflexivity.
Qed.

(** X3. Whatever the file system and the PDF library do, a string returned
    by [extract_pdf_text] is empty, or ends with a newline, or is an error
    message that starts with "Error reading PDF: ": a returned string that is
    not empty and does not end with a newline reports a failure. *)
Theorem X3_extract_pdf_text_result_shape (pdf_path s : pystr) :
  Pdf.extract_pdf_text open_rb PdfReader pages extract_text pdf_path = Ok s ->
  s = [] \/ last s = Some 10%N \/
  exists e,
    Pdf.read_pdf open_rb PdfReader pages extract_text pdf_path = Raise e /\
    s = lit "Error reading PDF: " ++ exc_str e.
Proof.
  unfold Pdf.extract_pdf_text.
  destruct (Pdf.read_pdf open_rb PdfReader pages extract_text pdf_path)
    as [text|e] eqn:Hr.
  - intros H. injection H as <-. unfold Pdf.read_pdf in Hr.
    destruct (open_rb pdf_path) as [file|?]; cbn [mbind result_bind] in Hr;
      [|discriminate].
    destruct (PdfReader file) as [r|?]; cbn [mbind result_bind] in Hr;
      [|discriminate].
    destruct (pages r) as [ps|?]; cbn [mbind result_bind] in Hr;
      [|discriminate].
    destruct (read_pages_shape _ _ _ Hr) as [->|Hl]; auto.
  - destruct (exc_is_Exception e); [|discriminate].
    intros H. injection H as <-. right. right. exists e. auto.
Qed.

End ExtractPdfTextPages.

Lemma X1_extract_pdf_text_joins_pages_witness :
  exists s,
    Pdf.extract_pdf_text sample_open_rb sample_PdfReader sample_pages
      sample_extract_text (lit "../data/sample-invoice.pdf") = Ok s /\
    s = lit "Invoice 123" ++ [10%N] ++ lit "Total 120.00" ++ [10%N] /\
    length s = 25%nat.
Proof.
  destruct (X1_extract_pdf_text_joins_pages _ _ _ sample_open_rb
    sample_PdfReader sample_pages sample_extract_text
    (lit "../data/sample-invoice.pdf") (lit "%PDF-1.4")
    [lit "Invoice 123"; lit "Total 120.00"]
    [lit "Invoice 123"; lit "Total 120.00"]
    [lit "Invoice 123"; lit "Total 120.00"])
    as (s & Hs & -> & Hlen & _).
  - reflexivity.
  - reflexivity.
  - reflexivity.
  - repeat constructor.
  - exists (concat (map (fun t => t ++ [10%N])
                     [lit "Invoice 123"; lit "Total 120.00"])).
    split; [exact Hs|]. split; [reflexivity|exact Hlen].
Defined.

Lemma X2_extract_pdf_text_first_failing_page_witness :
  Pdf.extract_pdf_text sample_open_rb sample_PdfReader sample_pages
    failing_extract_text (lit "../data/sample-invoice.pdf")
  = Ok (lit "Error reading PDF: Unexpected end of stream").
Proof.
  apply (X2_extract_pdf_text_first_failing_page _ _ _ sample_open_rb
    sample_PdfReader sample_pages failing_extract_text
    (lit "../data/sample-invoice.pdf") (lit "%PDF-1.4")
    [lit "Invoice 123"; lit "Total 120.00"]
    [lit "Invoice 123"] [] (lit "Total 120.00") PdfReadError).
  - reflexivity.
  - reflexivity.
  - reflexivity.
  - constructor; [|constructor]. exists (lit "Invoice 123"). reflexivity.
  - reflexivity.
  - reflexivity.
Defined.

Lemma X3_extract_pdf_text_result_shape_witness :
  last (lit "Invoice 123" ++ [10%N] ++ lit "Total 120.00" ++ [10%N])
  = Some 10%N.
Proof.
  destruct (X3_extract_pdf_text_result_shape _ _ _ sample_open_rb
    sample_PdfReader sample_pages sample_extract_text
    (lit "../data/sample-invoice.pdf")
    (lit "Invoice 123" ++ [10%N] ++ lit "Total 120.00" ++ [10%N]))
    as [H|[H|(e & H & _)]].
  - vm_compute. reflexivity.
  - vm_compute in H. discriminate.
  - exact H.
  - vm_compute in H. discriminate.
Defined.

(** ** More about [calculate_line_totals] *)

Lemma uint_digits_no_space u : 32%N ∉ uint_digits u.
Proof.
  induction u; cbn [uint_digits]; [apply not_elem_of_nil|..];
    apply not_elem_of_cons; (split; [discriminate|assumption]).
Qed.

Lemma str_replace_no_space s : 32%N ∉ str_replace 32%N 95%N s.
Proof.
  induction s as [|c s IH]; [apply not_elem_of_nil|].
  cbn [str_replace map]. apply not_elem_of_cons. split; [|exact IH].
  destruct (N.eqb_spec c 32) as [->|Hc]; [discriminate|].
  intros H. apply Hc. symmetry. exact H.
Qed.

Lemma line_key_no_space i item : 32%N ∉ line_key i item.
Proof.
  unfold line_key. rewrite !not_elem_of_app.
  split.
  { change (lit "line_") with [108; 105; 110; 101; 95]%N.
    repeat (apply not_elem_of_cons; split; [discriminate|]).
    apply not_elem_of_nil. }
  split; [apply uint_digits_no_space|].
  split; [|apply str_replace_no_space].
  change (lit "_") with [95%N]. apply not_elem_of_cons.
  split; [discriminate|apply not_elem_of_nil].
Qed.

Lemma lookup_map_Some {A B : Type} (f : A -> B) (l : list A) (n : nat) (y : B) :
  map f l !! n = Some y -> exists x, l !! n = Some x /\ y = f x.
Proof.
  revert n. induction l as [|a l IH]; intros [|n] H; try discriminate.
  - injection H as <-. exists a. auto.
  - exact (IH n H).
Qed.

(** X4. No key of the mapping returned by [calculate_line_totals] contains a
    space.  Every entry other than "subtotal" belongs to a line item: its key
    is "line_", the item's 1-based position, an underscore and the first 30
    characters of the item's description with every space replaced by an
    underscore (a part of as many characters as the description has, up to
    30), and its value is the item's [total_amount]. *)
Theorem X4_line_total_keys_shape (ctx : RunContext)
    (d : gmap pystr pyval) (k : pystr) (v : pyval) :
  calculate_line_totals ctx = Ok d ->
  d !! k = Some v ->
  (32%N ∉ k) /\
  (k = lit "subtotal" \/
   exists i item service_key,
     line_items (extracted_data (deps ctx)) !! i = Some item /\
     service_key = str_replace 32%N 95%N (take 30 (service_description item)) /\
     k = lit "line_" ++ str_of_nat (i + 1) ++ lit "_" ++ service_key /\
     length service_key = Nat.min 30 (length (service_description item)) /\
     (forall n c, service_key !! n = Some c ->
        exists c', service_description item !! n = Some c' /\
                   c = if N.eqb c' 32 then 95%N else c') /\
     v = VNum (PyFloat (total_amount item))).
Proof.
  unfold calculate_line_totals.
  rewrite sum_total_amount_eq. cbn [mbind result_bind].
  intros Hd Hk. injection Hd as <-.
  destruct (decide (lit "subtotal" = k)) as [<-|Hne].
  - split; [|left; reflexivity].
    change (lit "subtotal") with [115; 117; 98; 116; 111; 116; 97; 108]%N.
    repeat (apply not_elem_of_cons; split; [discriminate|]).
    apply not_elem_of_nil.
  - rewrite lookup_insert_ne in Hk by exact Hne.
    pose proof Hk as Hk'.
    apply line_totals_from_inv in Hk' as [Hk'|(j & item & Hj & ->)];
      [rewrite lookup_empty in Hk'; discriminate|].
    split; [apply line_key_no_space|]. right.
    exists j, item,
      (str_replace 32%N 95%N (take 30 (service_description item))).
    split; [exact Hj|]. split; [reflexivity|]. split; [reflexivity|].
    split; [unfold str_replace; rewrite length_map, length_take; reflexivity|].
    split.
    + intros n c Hn. unfold str_replace in Hn.
      apply lookup_map_Some in Hn as (c' & Hc & ->).
      exists c'. split; [|reflexivity].
      apply lookup_take_Some in Hc as [Hc _]. exact Hc.
    + pose proof (line_totals_from_item 0 _ ∅ j item Hj) as Hv.
      assert (E : Some v = Some (VNum (PyFloat (total_amount item))))
        by (rewrite <- Hk; exact Hv).
      injection E as ->. reflexivity.
Qed.

Lemma X4_line_total_keys_shape_witness :
  (32%N ∉ lit "line_2_Transaction_fee_T1") /\
  exists i item,
    line_items (extracted_data (deps ctx_consistent)) !! i = Some item /\
    lit "line_2_Transaction_fee_T1"
    = lit "line_" ++ str_of_nat (i + 1) ++ lit "_"
      ++ str_replace 32%N 95%N (take 30 (service_description item)) /\
    VNum (PyFloat (f_of_Z 40)) = VNum (PyFloat (total_amount item)).
Proof.
  destruct (calculate_line_totals ctx_consistent) as [d|e] eqn:Hd;
    [|vm_compute in Hd; discriminate].
  destruct (X4_line_total_keys_shape ctx_consistent d
    (lit "line_2_Transaction_fee_T1") (VNum (PyFloat (f_of_Z 40))) Hd)
    as [Hsp [Hsub|(i & item & sk & Hi & -> & Hk & _ & _ & Hv)]].
  - revert Hd. vm_compute. intros H. injection H as <-. reflexivity.
  - vm_compute in Hsub. discriminate.
  - split; [exact Hsp|]. exists i, item. auto.
Defined.

(** ** More about [validate_calculations] *)

(** X5. The two tools agree on the subtotal: the "subtotal" entry of
    [calculate_line_totals] is the "calculated_subtotal" entry of
    [validate_calculations]. *)
Theorem X5_tools_agree_on_subtotal (ctx : RunContext) :
  exists d1 d2 s,
    calculate_line_totals ctx = Ok d1 /\
    validate_calculations ctx = Ok d2 /\
    d1 !! lit "subtotal" = Some (VNum s) /\
    number d2 "calculated_subtotal" = Some s.
Proof.
  destruct (validate_entries ctx) as (d2 & Hd2 & Hs & _).
  unfold calculate_line_totals. rewrite sum_total_amount_eq.
  cbn [mbind result_bind]. eexists. exists d2. eexists.
  split; [reflexivity|]. split; [exact Hd2|].
  split; [apply lookup_insert_eq|exact Hs].
Qed.

Lemma within_tolerance_true_finite computed stated :
  Spec.within_tolerance computed stated = true ->
  f_is_finite computed = true /\ f_is_finite stated = true.
Proof.
  destruct computed as [sc|sc| |sc mc ec], stated as [ss|ss| |ss ms es];
    try (intros _; split; reflexivity);
    try destruct sc; try destruct ss; intros H; vm_compute in H;
    discriminate.
Qed.

(** X6. A flag is true only for finite figures: whenever [subtotal_correct],
    [vat_correct] or [total_correct] is true, both the calculated and the
    stated figure it compares are finite (neither infinite nor
    not-a-number). *)
Theorem X6_true_flag_needs_finite_figures (ctx : RunContext) :
  let inv := extracted_data (deps ctx) in
  let s := summary inv in
  exists d,
    validate_calculations ctx = Ok d /\
    (flag d "subtotal_correct" = Some true ->
     f_is_finite (Spec.computed_subtotal inv) = true /\
     f_is_finite (subtotal s) = true) /\
    (flag d "vat_correct" = Some true ->
     f_is_finite (Spec.computed_tax inv) = true /\
     f_is_finite (vat_amount s) = true) /\
    (flag d "total_correct" = Some true ->
     f_is_finite (Spec.computed_total inv) = true /\
     f_is_finite (gross_total s) = true).
Proof.
  intros inv s.
  destruct (validate_flags ctx) as (d & Hd & F1 & F2 & F3).
  exists d. split; [exact Hd|].
  rewrite F1, F2, F3.
  split; [|split]; intros Hb; injection Hb as Hb;
    exact (within_tolerance_true_finite _ _ Hb).
Qed.

Lemma X6_true_flag_needs_finite_figures_witness :
  f_is_finite (Spec.computed_total (extracted_data (deps ctx_consistent)))
    = true /\
  f_is_finite (gross_total (summary (extracted_data (deps ctx_consistent))))
    = true.
Proof.
  destruct (X6_true_flag_needs_finite_figures ctx_consistent)
    as (d & Hd & _ & _ & H3).
  apply H3.
  destruct (validate_flags ctx_consistent) as (d' & Hd' & _ & _ & F3).
  rewrite Hd in Hd'. injection Hd' as <-. rewrite F3.
  vm_compute. reflexivity.
Defined.

(** *** Infinite and not-a-number line items *)

Lemma f_add_not_finite_l a b :
  f_is_finite a = false -> f_is_finite (f_add a b) = false.
Proof.
  destruct a as [sa|sa| |sa ma ea]; try discriminate; intros _;
    destruct b as [sb|sb| |sb mb eb]; try reflexivity;
    destruct sa, sb; reflexivity.
Qed.

Lemma f_add_not_finite_r a b :
  f_is_finite b = false -> f_is_finite (f_add a b) = false.
Proof.
  destruct b as [sb|sb| |sb mb eb]; try discriminate; intros _;
    destruct a as [sa|sa| |sa ma ea]; try reflexivity;
    destruct sa, sb; reflexivity.
Qed.

Lemma f_mul_not_finite_l a b :
  f_is_finite a = false -> f_is_finite (f_mul a b) = false.
Proof.
  destruct a as [sa|sa| |sa ma ea]; try discriminate; intros _;
    destruct b as [sb|sb| |sb mb eb]; reflexivity.
Qed.

Lemma fold_f_add_not_finite_acc xs acc :
  f_is_finite acc = false -> f_is_finite (fold_left f_add xs acc) = false.
Proof.
  revert acc. induction xs as [|x xs IH]; intros acc H; [exact H|].
  cbn [fold_left]. apply IH, f_add_not_finite_l, H.
Qed.

Lemma fold_f_add_not_finite_item xs acc :
  existsb (fun x => negb (f_is_finite x)) xs = true ->
  f_is_finite (fold_left f_add xs acc) = false.
Proof.
  revert acc. induction xs as [|x xs IH]; intros acc H; [discriminate|].
  cbn [existsb] in H. cbn [fold_left].
  apply orb_prop in H as [H|H].
  - apply fold_f_add_not_finite_acc, f_add_not_finite_r.
    apply negb_true_iff, H.
  - apply IH, H.
Qed.

Lemma within_tolerance_not_finite computed stated :
  f_is_finite computed = false ->
  Spec.within_tolerance computed stated = false.
Proof.
  intros H. destruct (Spec.within_tolerance computed stated) eqn:Hw;
    [|reflexivity].
  apply within_tolerance_true_finite in Hw as [Hc _]. congruence.
Qed.

(** X7. One line item whose [total_amount] is infinite or not-a-number makes
    all three flags false, whatever the summary states. *)
Theorem X7_non_finite_line_item_fails_all (ctx : RunContext) :
  existsb (fun x => negb (f_is_finite x))
    (map total_amount (line_items (extracted_data (deps ctx)))) = true ->
  exists d,
    validate_calculations ctx = Ok d /\
    flag d "subtotal_correct" = Some false /\
    flag d "vat_correct" = Some false /\
    flag d "total_correct" = Some false.
Proof.
  intros H.
  destruct (validate_flags ctx) as (d & Hd & F1 & F2 & F3).
  exists d. split; [exact Hd|].
  pose proof (fold_f_add_not_finite_item _ (S754_zero false) H) as Hs.
  fold (Spec.sum_floats
          (map total_amount (line_items (extracted_data (deps ctx))))) in Hs.
  fold (Spec.computed_subtotal (extracted_data (deps ctx))) in Hs.
  rewrite F1, F2, F3.
  rewrite (within_tolerance_not_finite _ _ Hs).
  rewrite (within_tolerance_not_finite (Spec.computed_tax _));
    [|apply f_mul_not_finite_l, Hs].
  rewrite (within_tolerance_not_finite (Spec.computed_total _));
    [|apply f_add_not_finite_l, Hs].
  auto.
Qed.

Lemma X7_non_finite_line_item_fails_all_witness :
  exists d,
    validate_calculations ctx_infinite_item = Ok d /\
    flag d "subtotal_correct" = Some false /\
    flag d "vat_correct" = Some false /\
    flag d "total_correct" = Some false.
Proof.
  apply (X7_non_finite_line_item_fails_all ctx_infinite_item).
  vm_compute. reflexivity.
Defined.

(** *** Line items of amount zero *)

Lemma same_number_refl a : same_number a a.
Proof. left. reflexivity. Qed.

Lemma f_add_zero_r_same c z :
  f_is_zero z = true -> same_number (f_add c z) c.
Proof.
  destruct z as [sz| | |]; try discriminate. intros _.
  destruct c as [sc|sc| |sc mc ec]; try (left; reflexivity).
  right. destruct sc, sz; split; reflexivity.
Qed.

Lemma f_add_same_l a a' y :
  same_number a a' -> same_number (f_add a y) (f_add a' y).
Proof.
  intros [->|[Ha Ha']]; [apply same_number_refl|].
  destruct a as [sa| | |], a' as [sa'| | |]; try discriminate.
  destruct y as [sy|sy| |sy my ey]; try (left; reflexivity).
  right. destruct sa, sa', sy; split; reflexivity.
Qed.

Lemma fold_f_add_same xs acc acc' :
  same_number acc acc' ->
  same_number (fold_left f_add xs acc) (fold_left f_add xs acc').
Proof.
  revert acc acc'. induction xs as [|x xs IH]; intros acc acc' H; [exact H|].
  cbn [fold_left]. apply IH, f_add_same_l, H.
Qed.

Lemma f_mul_same_l a a' q :
  same_number a a' -> same_number (f_mul a q) (f_mul a' q).
Proof.
  intros [->|[Ha Ha']]; [apply same_number_refl|].
  destruct a as [sa| | |], a' as [sa'| | |]; try discriminate.
  destruct q as [sq|sq| |sq mq eq]; try (left; reflexivity);
    right; split; reflexivity.
Qed.

Lemma f_add_same a a' b b' :
  same_number a a' -> same_number b b' ->
  same_number (f_add a b) (f_add a' b').
Proof.
  intros Ha [->|[Hb Hb']]; [apply f_add_same_l, Ha|].
  destruct b as [sb| | |], b' as [sb'| | |]; try discriminate.
  destruct Ha as [->|[Ha Ha']].
  - destruct a' as [sa|sa| |sa ma ea]; try (left; reflexivity).
    right. destruct sa, sb, sb'; split; reflexivity.
  - destruct a as [sa| | |], a' as [sa'| | |]; try discriminate.
    right. destruct sa, sa', sb, sb'; split; reflexivity.
Qed.

Lemma within_tolerance_same computed computed' stated :
  same_number computed computed' ->
  Spec.within_tolerance computed stated
  = Spec.within_tolerance computed' stated.
Proof.
  intros [->|[Ha Ha']]; [reflexivity|].
  destruct computed as [sa| | |], computed' as [sa'| | |]; try discriminate.
  destruct stated as [ss|ss| |ss ms es]; try reflexivity;
    destruct sa, sa', ss; reflexivity.
Qed.

(** X8. A line item whose [total_amount] is zero does not change the
    verdict: putting it anywhere among the line items of an invoice leaves
    [subtotal_correct], [vat_correct] and [total_correct] as they were. *)
Theorem X8_zero_line_item_keeps_flags (ctx ctx' : RunContext)
    (before after : list LineItem) (zero_item : LineItem) :
  line_items (extracted_data (deps ctx)) = before ++ after ->
  line_items (extracted_data (deps ctx')) = before ++ zero_item :: after ->
  f_is_zero (total_amount zero_item) = true ->
  summary (extracted_data (deps ctx')) = summary (extracted_data (deps ctx)) ->
  exists d d',
    validate_calculations ctx = Ok d /\
    validate_calculations ctx' = Ok d' /\
    flag d' "subtotal_correct" = flag d "subtotal_correct" /\
    flag d' "vat_correct" = flag d "vat_correct" /\
    flag d' "total_correct" = flag d "total_correct".
Proof.
  intros Hitems Hitems' Hz Hsum.
  destruct (validate_flags ctx) as (d & Hd & F1 & F2 & F3).
  destruct (validate_flags ctx') as (d' & Hd' & F1' & F2' & F3').
  exists d, d'. split; [exact Hd|]. split; [exact Hd'|].
  assert (Hc : same_number
                 (Spec.computed_subtotal (extracted_data (deps ctx')))
                 (Spec.computed_subtotal (extracted_data (deps ctx)))).
  { unfold Spec.computed_subtotal, Spec.sum_floats.
    rewrite Hitems, Hitems', !map_app. cbn [map].
    rewrite !fold_left_app. cbn [fold_left].
    apply fold_f_add_same, f_add_zero_r_same, Hz. }
  assert (Ht : same_number
                 (Spec.computed_tax (extracted_data (deps ctx')))
                 (Spec.computed_tax (extracted_data (deps ctx)))).
  { unfold Spec.computed_tax. rewrite Hsum. apply f_mul_same_l, Hc. }
  assert (Hg : same_number
                 (Spec.computed_total (extracted_data (deps ctx')))
                 (Spec.computed_total (extracted_data (deps ctx)))).
  { unfold Spec.computed_total. apply f_add_same; assumption. }
  rewrite F1, F2, F3, F1', F2', F3', Hsum.
  rewrite (within_tolerance_same _ _ _ Hc), (within_tolerance_same _ _ _ Ht),
    (within_tolerance_same _ _ _ Hg).
  auto.
Qed.

Lemma X8_zero_line_item_keeps_flags_witness :
  exists d d',
    validate_calculations ctx_consistent = Ok d /\
    validate_calculations ctx_with_zero_item = Ok d' /\
    flag d' "subtotal_correct" = flag d "subtotal_correct" /\
    flag d' "vat_correct" = flag d "vat_correct" /\
    flag d' "total_correct" = flag d "total_correct".
Proof.
  apply (X8_zero_line_item_keeps_flags ctx_consistent ctx_with_zero_item
    [sample_item "Basic fee" (f_of_Z 60)]
    [sample_item "Transaction fee T1" (f_of_Z 40)]
    (sample_item "Free trial" (f_of_Z 0))); reflexivity.
Defined.

(** ** String operations *)

Lemma starts_with_spec needle hay :
  starts_with needle hay = true <-> exists rest, hay = needle ++ rest.
Proof.
  revert hay. induction needle as [|a needle IH]; intros hay;
    cbn [starts_with].
  - split; [intros _; exists hay; reflexivity|reflexivity].
  - destruct hay as [|b hay].
    + split; [discriminate|intros [rest H]; discriminate].
    + rewrite andb_true_iff, N.eqb_eq, IH. split.
      * intros [-> [rest ->]]. exists rest. reflexivity.
      * intros [rest H]. injection H as -> ->. split; [reflexivity|].
        exists rest. reflexivity.
Qed.

(** [needle in hay] holds exactly when [needle] occurs as a contiguous part
    of [hay]. *)
Lemma str_contains_spec needle hay :
  str_contains needle hay = true <->
  exists before after, hay = before ++ needle ++ after.
Proof.
  induction hay as [|c hay IH]; cbn [str_contains];
    rewrite orb_true_iff, starts_with_spec.
  - split.
    + intros [[rest H]|H]; [|discriminate].
      exists [], rest. exact H.
    + intros (before & after & H). left.
      destruct before; [exists after; exact H|discriminate].
  - rewrite IH. split.
    + intros [[rest H]|(before & after & ->)].
      * exists [], rest. exact H.
      * exists (c :: before), after. reflexivity.
    + intros (before & after & H). destruct before as [|b before].
      * left. exists after. exact H.
      * right. injection H as -> ->. exists before, after. reflexivity.
Qed.

(** Joining the pieces of a split with the separator gives the string
    back. *)
Lemma str_split_join sep s :
  match str_split sep s with
  | [] => False
  | piece :: pieces => piece ++ concat (map (cons sep) pieces) = s
  end.
Proof.
  unfold str_split. induction s as [|c s IH]; cbn [split_pieces];
    [reflexivity|].
  destruct (split_pieces sep s) as [piece pieces].
  destruct (N.eqb_spec c sep) as [->|Hc]; cbn [map concat app];
    rewrite IH; reflexivity.
Qed.

(** No piece of a split contains the separator. *)
Lemma str_split_no_sep sep s piece :
  piece ∈ str_split sep s -> sep ∉ piece.
Proof.
  unfold str_split. revert piece.
  induction s as [|c s IH]; intros piece; cbn [split_pieces].
  - intros H. apply list_elem_of_singleton in H as ->. apply not_elem_of_nil.
  - destruct (split_pieces sep s) as [p ps].
    destruct (N.eqb_spec c sep) as [->|Hc]; intros H.
    + apply elem_of_cons in H as [->|H]; [apply not_elem_of_nil|].
      apply IH, H.
    + apply elem_of_cons in H as [->|H].
      * apply not_elem_of_cons. split; [congruence|].
        apply IH. left.
      * apply IH. right. exact H.
Qed.

Section StripFacts.

Variable isspace : N -> bool.

Lemma str_lstrip_suffix s :
  exists spaces, s = spaces ++ str_lstrip isspace s.
Proof.
  induction s as [|c s [spaces IH]]; cbn [str_lstrip].
  - exists []. reflexivity.
  - destruct (isspace c).
    + exists (c :: spaces). cbn [app]. f_equal. exact IH.
    + exists []. reflexivity.
Qed.

Lemma str_lstrip_head s c :
  head (str_lstrip isspace s) = Some c -> isspace c = false.
Proof.
  induction s as [|b s IH]; cbn [str_lstrip]; [discriminate|].
  destruct (isspace b) eqn:Hb; [exact IH|].
  intros H. injection H as <-. exact Hb.
Qed.

Lemma str_rstrip_prefix s :
  exists spaces, s = str_rstrip isspace s ++ spaces.
Proof.
  unfold str_rstrip.
  destruct (str_lstrip_suffix (rev s)) as [spaces H].
  exists (rev spaces). rewrite <- rev_app_distr, <- H, rev_involutive.
  reflexivity.
Qed.

Lemma rev_last_head (l : pystr) : last (rev l) = head l.
Proof.
  destruct l as [|x l]; [reflexivity|]. cbn [rev head]. apply last_snoc.
Qed.

Lemma str_rstrip_last s c :
  last (str_rstrip isspace s) = Some c -> isspace c = false.
Proof.
  unfold str_rstrip. rewrite rev_last_head. apply str_lstrip_head.
Qed.

(** [s.strip()] is a contiguous part of [s] that neither begins nor ends
    with white space. *)
Lemma str_strip_spec s :
  (exists left right, s = left ++ str_strip isspace s ++ right) /\
  (forall c, head (str_strip isspace s) = Some c -> isspace c = false) /\
  (forall c, last (str_strip isspace s) = Some c -> isspace c = false).
Proof.
  unfold str_strip.
  destruct (str_lstrip_suffix s) as [left Hl].
  destruct (str_rstrip_prefix (str_lstrip isspace s)) as [right Hr].
  split; [|split].
  - exists left, right. rewrite <- Hr. exact Hl.
  - intros c Hc. apply (str_lstrip_head s).
    rewrite Hr. destruct (str_rstrip isspace (str_lstrip isspace s));
      [discriminate|exact Hc].
  - apply str_rstrip_last.
Qed.

Lemma str_strip_elem_of s c : c ∈ str_strip isspace s -> c ∈ s.
Proof.
  destruct (str_strip_spec s) as [(left & right & H) _].
  intros Hc. rewrite H, !elem_of_app. auto.
Qed.

End StripFacts.

(** ** About [lookup_transaction_details] *)

Section LookupFacts.

Variable lower : pystr -> pystr.
Variable isspace : N -> bool.

Lemma record_lines_other (cond : pystr -> bool) (key : pystr)
    (lines : list pystr) (details : gmap pystr pystr) (k : pystr) :
  k <> key ->
  record_lines isspace cond key lines details !! k = details !! k.
Proof.
  intros Hk. revert details.
  induction lines as [|line rest IH]; intros details; [reflexivity|].
  cbn [record_lines]. rewrite IH.
  destruct (cond line); [|reflexivity].
  apply lookup_insert_ne. congruence.
Qed.

(** The entry a loop leaves under its key: the last matching line,
    stripped. *)
Lemma record_lines_key (cond : pystr -> bool) (key : pystr)
    (lines : list pystr) (details : gmap pystr pystr) :
  record_lines isspace cond key lines details !! key =
  match last (filter (fun line => cond line = true) lines) with
  | Some line => Some (str_strip isspace line)
  | None => details !! key
  end.
Proof.
  revert details.
  induction lines as [|line rest IH]; intros details; [reflexivity|].
  cbn [record_lines]. rewrite IH.
  destruct (cond line) eqn:Hc.
  - rewrite filter_cons_True by exact Hc. rewrite last_cons.
    destruct (last (filter (fun l => cond l = true) rest)); [reflexivity|].
    apply lookup_insert_eq.
  - rewrite filter_cons_False by congruence. reflexivity.
Qed.

Lemma record_lines_inv (cond : pystr -> bool) (key : pystr)
    (lines : list pystr) (details : gmap pystr pystr) (k v : pystr) :
  record_lines isspace cond key lines details !! k = Some v ->
  details !! k = Some v \/
  (k = key /\ exists line,
     line ∈ lines /\ cond line = true /\ v = str_strip isspace line).
Proof.
  destruct (decide (k = key)) as [->|Hk].
  - rewrite record_lines_key.
    destruct (last (filter (fun line => cond line = true) lines))
      as [line|] eqn:Hl; [|auto].
    intros H. injection H as <-. right. split; [reflexivity|].
    apply last_Some_elem_of, list_elem_of_filter in Hl as [Hc Hin].
    exists line. auto.
  - rewrite record_lines_other by exact Hk. auto.
Qed.

(** X9. When the type contains "basic" (in lower case) and some line of the
    raw text contains "basic fee", the entry "found_basic_fee" is the last
    such line, stripped of surrounding white space: a later match replaces
    an earlier one. *)
Theorem X9_lookup_basic_fee_last_line (ctx : RunContext)
    (transaction_type line : pystr) :
  str_contains (lit "basic") (lower transaction_type) = true ->
  last (filter (fun l => is_basic_line lower l = true)
          (str_split 10%N (raw_text (deps ctx)))) = Some line ->
  lookup_transaction_details lower isspace ctx transaction_type
    !! lit "found_basic_fee"
  = Some (str_strip isspace line).
Proof.
  intros Hb Hl. unfold lookup_transaction_details. rewrite Hb.
  rewrite record_lines_key, Hl. reflexivity.
Qed.

(** X10. When the type contains "transaction" (in lower case) and is not
    "basic_fee", the entry "found_" + type is the last line that contains
    both "transaction fee" and the type (all in lower case), stripped; there
    is no such entry when no line matches. *)
Theorem X10_lookup_transaction_last_line (ctx : RunContext)
    (transaction_type : pystr) :
  str_contains (lit "transaction") (lower transaction_type) = true ->
  transaction_type <> lit "basic_fee" ->
  lookup_transaction_details lower isspace ctx transaction_type
    !! (lit "found_" ++ transaction_type)
  = str_strip isspace <$>
    last (filter (fun l => is_transaction_line lower transaction_type l = true)
            (str_split 10%N (raw_text (deps ctx)))).
Proof.
  intros Ht Hne. unfold lookup_transaction_details. rewrite Ht.
  assert (Hk : lit "found_" ++ transaction_type <> lit "found_basic_fee").
  { intros H. apply Hne.
    change (lit "found_basic_fee") with (lit "found_" ++ lit "basic_fee") in H.
    exact (app_inv_head _ _ _ H). }
  destruct (str_contains (lit "basic") (lower transaction_type)).
  - rewrite record_lines_other by exact Hk.
    rewrite record_lines_key, lookup_empty.
    destruct (last _); reflexivity.
  - rewrite record_lines_key, lookup_empty.
    destruct (last _); reflexivity.
Qed.

Lemma lookup_entry_origin (ctx : RunContext) (transaction_type k v : pystr) :
  lookup_transaction_details lower isspace ctx transaction_type !! k = Some v ->
  exists line,
    line ∈ str_split 10%N (raw_text (deps ctx)) /\
    v = str_strip isspace line /\
    ((k = lit "found_" ++ transaction_type /\
      str_contains (lit "transaction") (lower transaction_type) = true /\
      is_transaction_line lower transaction_type line = true) \/
     (k = lit "found_basic_fee" /\
      str_contains (lit "basic") (lower transaction_type) = true /\
      is_basic_line lower line = true)).
Proof.
  unfold lookup_transaction_details. intros H.
  destruct (str_contains (lit "basic") (lower transaction_type)) eqn:Hb.
  - apply record_lines_inv in H as [H|(-> & line & Hin & Hc & ->)].
    + destruct (str_contains (lit "transaction") (lower transaction_type))
        eqn:Ht; [|rewrite lookup_empty in H; discriminate].
      apply record_lines_inv in H as [H|(-> & line & Hin & Hc & ->)];
        [rewrite lookup_empty in H; discriminate|].
      exists line. auto 10.
    + exists line. auto 10.
  - destruct (str_contains (lit "transaction") (lower transaction_type))
      eqn:Ht; [|rewrite lookup_empty in H; discriminate].
    apply record_lines_inv in H as [H|(-> & line & Hin & Hc & ->)];
      [rewrite lookup_empty in H; discriminate|].
    exists line. auto 10.
Qed.

(** X11. Every entry of the result comes from a matching line: its value is
    a line of the raw text stripped of surrounding white space, the line
    passes the test of the loop that wrote the key, and so the value
    contains no newline and neither begins nor ends with white space. *)
Theorem X11_lookup_entries_come_from_lines (ctx : RunContext)
    (transaction_type k v : pystr) :
  lookup_transaction_details lower isspace ctx transaction_type !! k = Some v ->
  exists line,
    line ∈ str_split 10%N (raw_text (deps ctx)) /\
    v = str_strip isspace line /\
    ((k = lit "found_" ++ transaction_type /\
      str_contains (lit "transaction") (lower transaction_type) = true /\
      is_transaction_line lower transaction_type line = true) \/
     (k = lit "found_basic_fee" /\
      str_contains (lit "basic") (lower transaction_type) = true /\
      is_basic_line lower line = true)) /\
    (10%N ∉ v) /\
    (forall c, head v = Some c -> isspace c = false) /\
    (forall c, last v = Some c -> isspace c = false).
Proof.
  intros H.
  destruct (lookup_entry_origin _ _ _ _ H) as (line & Hin & -> & Hk).
  exists line. split; [exact Hin|]. split; [reflexivity|].
  split; [exact Hk|].
  destruct (str_strip_spec isspace line) as (_ & Hhead & Hlast).
  split; [|split; assumption].
  intros Hnl. apply str_strip_elem_of in Hnl.
  exact (str_split_no_sep _ _ _ Hin Hnl).
Qed.

Lemma record_lines_dom (cond : pystr -> bool) (key : pystr)
    (lines : list pystr) (details : gmap pystr pystr) :
  dom (record_lines isspace cond key lines details) ⊆ dom details ∪ {[key]}.
Proof.
  intros k Hk. apply elem_of_dom in Hk as [v Hv].
  apply record_lines_inv in Hv as [Hv|[-> _]].
  - apply elem_of_union_l, elem_of_dom. eauto.
  - apply elem_of_union_r, elem_of_singleton. reflexivity.
Qed.

(** X12. The result has at most two entries, and it is empty when the type
    contains neither "transaction" nor "basic" (in lower case), whatever the
    raw text holds. *)
Theorem X12_lookup_at_most_two_entries (ctx : RunContext)
    (transaction_type : pystr) :
  let d := lookup_transaction_details lower isspace ctx transaction_type in
  (size d <= 2)%nat /\
  (str_contains (lit "transaction") (lower transaction_type) = false ->
   str_contains (lit "basic") (lower transaction_type) = false ->
   d = ∅).
Proof.
  cbn zeta. split.
  - assert (Hdom : dom (lookup_transaction_details lower isspace ctx
                          transaction_type)
                   ⊆ {[lit "found_" ++ transaction_type]}
                     ∪ {[lit "found_basic_fee"]}).
    { intros k Hk. apply elem_of_dom in Hk as [v Hv].
      apply lookup_entry_origin in Hv
        as (_ & _ & _ & [(-> & _)|(-> & _)]); set_solver. }
    rewrite <- size_dom.
    pose proof (subseteq_size _ _ Hdom) as Hs.
    rewrite size_union_alt, size_singleton in Hs.
    assert (Hd : (size (({[lit "found_basic_fee"]} : gset pystr)
                        ∖ {[lit "found_" ++ transaction_type]}) <= 1)%nat).
    { rewrite <- (size_singleton (C := gset pystr) (lit "found_basic_fee")).
      apply subseteq_size, subseteq_difference_l. reflexivity. }
    lia.
  - intros Ht Hb. unfold lookup_transaction_details. rewrite Ht, Hb.
    reflexivity.
Qed.

End LookupFacts.

Lemma X9_lookup_basic_fee_last_line_witness :
  lookup_transaction_details ascii_lower ascii_isspace (text_ctx sample_text)
    (lit "Basic") !! lit "found_basic_fee"
  = Some (lit "Basic fee wmPos 50,00").
Proof.
  rewrite (X9_lookup_basic_fee_last_line ascii_lower ascii_isspace
             (text_ctx sample_text) (lit "Basic")
             (lit " Basic fee wmPos 50,00 ")).
  - vm_compute. reflexivity.
  - vm_compute. reflexivity.
  - vm_compute. reflexivity.
Defined.

Lemma X10_lookup_transaction_last_line_witness :
  lookup_transaction_details ascii_lower ascii_isspace (text_ctx sample_text)
    (lit "Transaction Fee T1") !! (lit "found_" ++ lit "Transaction Fee T1")
  = Some (lit "Transaction Fee T1  0,58") /\
  lookup_transaction_details ascii_lower ascii_isspace (text_ctx sample_text)
    (lit "transaction fee T9") !! (lit "found_" ++ lit "transaction fee T9")
  = None.
Proof.
  split.
  - rewrite (X10_lookup_transaction_last_line ascii_lower ascii_isspace
               (text_ctx sample_text) (lit "Transaction Fee T1")).
    + vm_compute. reflexivity.
    + vm_compute. reflexivity.
    + intros H. vm_compute in H. discriminate.
  - rewrite (X10_lookup_transaction_last_line ascii_lower ascii_isspace
               (text_ctx sample_text) (lit "transaction fee T9")).
    + vm_compute. reflexivity.
    + vm_compute. reflexivity.
    + intros H. vm_compute in H. discriminate.
Defined.

Lemma X11_lookup_entries_come_from_lines_witness :
  (10%N ∉ lit "Basic fee wmPos 50,00") /\
  head (lit "Basic fee wmPos 50,00") = Some 66%N /\
  ascii_isspace 66%N = false.
Proof.
  destruct (X11_lookup_entries_come_from_lines ascii_lower ascii_isspace
              (text_ctx sample_text) (lit "Basic") (lit "found_basic_fee")
              (lit "Basic fee wmPos 50,00"))
    as (line & _ & _ & _ & Hnl & Hhead & _).
  - vm_compute. reflexivity.
  - split; [exact Hnl|]. split; [reflexivity|].
    apply Hhead. reflexivity.
Defined.

Lemma X12_lookup_at_most_two_entries_witness :
  lookup_transaction_details ascii_lower ascii_isspace (text_ctx sample_text)
    (lit "T1") = ∅.
Proof.
  apply (X12_lookup_at_most_two_entries ascii_lower ascii_isspace
           (text_ctx sample_text) (lit "T1")).
  - vm_compute. reflexivity.
  - vm_compute. reflexivity.
Defined.


(** ** The tool on the heap *)

Lemma heap_bind_ok {A B : Type} (c : Heap.M A) (k : A -> Heap.M B)
    (h h' : Heap.heap) (a : A) :
  c h = (h', Ok a) -> (a' ← c; k a') h = k a h'.
Proof.
  intros H. unfold mbind, Heap.M_bind. rewrite H. reflexivity.
Qed.

Lemma heap_getattr_ok {A : Type} (proj : Heap.object -> option A)
    (l : Heap.loc) (h : Heap.heap) (o : Heap.object) (a : A) :
  h !! l = Some o -> proj o = Some a -> Heap.getattr proj l h = (h, Ok a).
Proof.
  intros Hl Hp. unfold Heap.getattr. rewrite Hl, Hp. reflexivity.
Qed.

(** The loop reads the line items and leaves the heap as it was; its value is
    the sum of their totals. *)
Lemma heap_sum_total_amount (h : Heap.heap) (item_locs : list Heap.loc)
    (items : list LineItem) (acc : pynum) :
  Forall2 (fun l_item item => h !! l_item = Some (Heap.OLineItem item))
    item_locs items ->
  Heap.sum_total_amount acc item_locs h
  = (h, sum_from acc (map (fun item => PyFloat (total_amount item)) items)).
Proof.
  intros H. revert acc.
  induction H as [|l_item item item_locs items Hl _ IH]; intros acc;
    [reflexivity|].
  cbn [Heap.sum_total_amount map sum_from].
  rewrite (heap_bind_ok _ _ h h (total_amount item))
    by (exact (heap_getattr_ok Heap.total_amount_of _ _ _ _ Hl eq_refl)).
  unfold mbind at 1, Heap.M_bind, Heap.lift.
  destruct (py_add acc (PyFloat (total_amount item))) as [acc'|e];
    [|reflexivity].
  cbn [mbind result_bind]. apply IH.
Qed.

Lemma heap_summary_attr (h : Heap.heap) (l_inv l_header l_list l_summary : Heap.loc)
    (fields : InvoiceSummary) (proj : Heap.object -> option float) (x : float) :
  h !! l_inv = Some (Heap.OStructuredInvoice l_header l_list l_summary) ->
  h !! l_summary = Some (Heap.OInvoiceSummary fields) ->
  proj (Heap.OInvoiceSummary fields) = Some x ->
  Heap.summary_attr proj l_inv h = (h, Ok x).
Proof.
  intros Hi Hs Hp. unfold Heap.summary_attr.
  rewrite (heap_bind_ok _ _ h h l_summary)
    by (exact (heap_getattr_ok Heap.summary_of _ _ _ _ Hi eq_refl)).
  exact (heap_getattr_ok proj _ _ _ _ Hs Hp).
Qed.

(** On a heap that holds the context, the tool returns a new dictionary with
    the nine entries and changes nothing else. *)
Lemma heap_validate_calculations_eq (h : Heap.heap) (l : Heap.loc)
    (ctx : RunContext) :
  Heap.represents h l ctx ->
  Heap.validate_calculations l h
  = (<[fresh (dom h) := Heap.ODict (Spec.validate (extracted_data (deps ctx)))]> h,
     Ok (fresh (dom h))).
Proof.
  intros (l_deps & l_inv & l_header & l_list & l_summary & item_locs
          & Hl & Hd & Hi & _ & Hlist & Hitems & Hs).
  set (inv := extracted_data (deps ctx)) in *.
  pose proof (as_float_as_sum (line_items inv)) as Hf.
  unfold Heap.validate_calculations.
  rewrite (heap_bind_ok _ _ h h l_deps)
    by (exact (heap_getattr_ok Heap.deps_of _ _ _ _ Hl eq_refl)).
  rewrite (heap_bind_ok _ _ h h l_inv)
    by (exact (heap_getattr_ok Heap.extracted_data_of _ _ _ _ Hd eq_refl)).
  rewrite (heap_bind_ok _ _ h h l_list)
    by (exact (heap_getattr_ok Heap.line_items_of _ _ _ _ Hi eq_refl)).
  rewrite (heap_bind_ok _ _ h h item_locs)
    by (exact (heap_getattr_ok Heap.items_of _ _ _ _ Hlist eq_refl)).
  rewrite (heap_bind_ok _ _ h h
             (Spec.as_sum (line_items inv)
                (Spec.sum_floats (map total_amount (line_items inv))))).
  2:{ rewrite (heap_sum_total_amount _ _ _ _ Hitems). f_equal.
      exact (sum_total_amount_eq (line_items inv)). }
  rewrite (heap_bind_ok _ _ h h (vat_rate (summary inv)))
    by (exact (heap_summary_attr _ _ _ _ _ _ _ _ Hi Hs eq_refl)).
  rewrite (heap_bind_ok _ _ h h
             (PyFloat (f_div (vat_rate (summary inv)) (f_of_Z 100))))
    by (unfold Heap.lift; rewrite float_truediv_100; reflexivity).
  rewrite (heap_bind_ok _ _ h h (PyFloat (Spec.computed_tax inv)))
    by (unfold Heap.lift, py_mul; rewrite (arith_float_r _ _ _ _ _ Hf);
        reflexivity).
  rewrite (heap_bind_ok _ _ h h (PyFloat (Spec.computed_total inv)))
    by (unfold Heap.lift, py_add; rewrite (arith_float_r _ _ _ _ _ Hf);
        reflexivity).
  rewrite (heap_bind_ok _ _ h h (subtotal (summary inv)))
    by (exact (heap_summary_attr _ _ _ _ _ _ _ _ Hi Hs eq_refl)).
  rewrite (heap_bind_ok _ _ h h
             (PyFloat (f_sub (Spec.computed_subtotal inv)
                         (subtotal (summary inv)))))
    by (unfold Heap.lift, py_sub; rewrite (arith_float_r _ _ _ _ _ Hf);
        reflexivity).
  rewrite (heap_bind_ok _ _ h h (vat_amount (summary inv)))
    by (exact (heap_summary_attr _ _ _ _ _ _ _ _ Hi Hs eq_refl)).
  rewrite (heap_bind_ok _ _ h h
             (PyFloat (f_sub (Spec.computed_tax inv)
                         (vat_amount (summary inv)))))
    by reflexivity.
  rewrite (heap_bind_ok _ _ h h (gross_total (summary inv)))
    by (exact (heap_summary_attr _ _ _ _ _ _ _ _ Hi Hs eq_refl)).
  rewrite (heap_bind_ok _ _ h h
             (PyFloat (f_sub (Spec.computed_total inv)
                         (gross_total (summary inv)))))
    by reflexivity.
  rewrite (heap_bind_ok _ _ h h (subtotal (summary inv)))
    by (exact (heap_summary_attr _ _ _ _ _ _ _ _ Hi Hs eq_refl)).
  rewrite (heap_bind_ok _ _ h h (vat_amount (summary inv)))
    by (exact (heap_summary_attr _ _ _ _ _ _ _ _ Hi Hs eq_refl)).
  rewrite (heap_bind_ok _ _ h h (gross_total (summary inv)))
    by (exact (heap_summary_attr _ _ _ _ _ _ _ _ Hi Hs eq_refl)).
  reflexivity.
Qed.

Lemma heap_lookup_insert_eq (h : Heap.heap) (l : Heap.loc) (o : Heap.object) :
  <[l := o]> h !! l = Some o.
Proof. apply lookup_insert_eq. Qed.

Lemma heap_lookup_insert_ne (h : Heap.heap) (l l' : Heap.loc)
    (o : Heap.object) :
  l <> l' -> <[l := o]> h !! l' = h !! l'.
Proof. apply lookup_insert_ne. Qed.

(** A new object does not disturb the objects that hold the context. *)
Lemma heap_represents_frame (h : Heap.heap) (l d : Heap.loc)
    (o : Heap.object) (ctx : RunContext) :
  Heap.represents h l ctx -> h !! d = None ->
  Heap.represents (<[d := o]> h) l ctx.
Proof.
  intros (l_deps & l_inv & l_header & l_list & l_summary & item_locs
          & Hl & Hd & Hi & Hh & Hlist & Hitems & Hs) Hfresh.
  assert (Hkeep : forall l' o', h !! l' = Some o' ->
                                <[d := o]> h !! l' = Some o').
  { intros l' o' H'. rewrite <- H'. apply lookup_insert_ne. congruence. }
  exists l_deps, l_inv, l_header, l_list, l_summary, item_locs.
  repeat (split; [apply Hkeep; assumption|]).
  split; [|apply Hkeep; assumption].
  eapply Forall2_impl; [exact Hitems|]. intros l_item item. apply Hkeep.
Qed.

(** C7. On every heap that holds a fully populated context, a call of
    [validate_calculations] raises nothing and has no effect but to create
    the dictionary it returns: that dictionary is a new object and every
    object that was there is left as it was.  A second call on the heap the
    first one leaves does the same and returns a dictionary with identical
    contents, which are the ones the tool yields as a function of the
    context. *)
Theorem C7_validate_no_side_effects_repeatable (h : Heap.heap)
    (l : Heap.loc) (ctx : RunContext) :
  Heap.represents h l ctx ->
  exists (d1 d2 : Heap.loc) (h1 h2 : Heap.heap) (result : gmap pystr pyval),
    Heap.validate_calculations l h = (h1, Ok d1) /\
    Heap.validate_calculations l h1 = (h2, Ok d2) /\
    h !! d1 = None /\ h1 = <[d1 := Heap.ODict result]> h /\
    h1 !! d2 = None /\ h2 = <[d2 := Heap.ODict result]> h1 /\
    (forall l' o, h !! l' = Some o ->
                  h1 !! l' = Some o /\ h2 !! l' = Some o) /\
    h2 !! d1 = Some (Heap.ODict result) /\
    h2 !! d2 = Some (Heap.ODict result) /\
    validate_calculations ctx = Ok result.
Proof.
  intros Hrep.
  set (result := Spec.validate (extracted_data (deps ctx))).
  set (d1 := fresh (dom h)).
  set (h1 := <[d1 := Heap.ODict result]> h).
  set (d2 := fresh (dom h1)).
  set (h2 := <[d2 := Heap.ODict result]> h1).
  assert (Hd1 : h !! d1 = None)
    by (apply not_elem_of_dom, is_fresh).
  assert (Hd2 : h1 !! d2 = None)
    by (apply not_elem_of_dom, is_fresh).
  assert (Hrep1 : Heap.represents h1 l ctx)
    by (apply heap_represents_frame; assumption).
  assert (Hne : d2 <> d1).
  { intros Heq. rewrite Heq in Hd2. unfold h1 in Hd2.
    rewrite heap_lookup_insert_eq in Hd2. discriminate. }
  exists d1, d2, h1, h2, result.
  split; [exact (heap_validate_calculations_eq h l ctx Hrep)|].
  split; [exact (heap_validate_calculations_eq h1 l ctx Hrep1)|].
  split; [exact Hd1|]. split; [reflexivity|].
  split; [exact Hd2|]. split; [reflexivity|].
  split; [|split; [|split]].
  - intros l' o Hl'.
    assert (H1 : h1 !! l' = Some o).
    { unfold h1. rewrite heap_lookup_insert_ne; [exact Hl'|]. congruence. }
    split; [exact H1|].
    unfold h2. rewrite heap_lookup_insert_ne; [exact H1|]. congruence.
  - unfold h2. rewrite heap_lookup_insert_ne by exact Hne.
    unfold h1. apply heap_lookup_insert_eq.
  - unfold h2. apply heap_lookup_insert_eq.
  - apply validate_calculations_eq.
Qed.

Lemma sample_heap_represents :
  Heap.represents sample_heap 1%positive ctx_consistent.
Proof.
  exists 2%positive, 3%positive, 4%positive, 5%positive, 8%positive,
    [6%positive; 7%positive].
  repeat (split; [reflexivity|]).
  split; [|reflexivity].
  repeat constructor.
Qed.

Lemma C7_validate_no_side_effects_repeatable_witness :
  exists (d1 d2 : Heap.loc) (h2 : Heap.heap) (result : gmap pystr pyval),
    d1 <> d2 /\
    h2 !! d1 = Some (Heap.ODict result) /\
    h2 !! d2 = Some (Heap.ODict result) /\
    h2 !! 8%positive = sample_heap !! 8%positive /\
    flag result "total_correct" = Some true.
Proof.
  destruct (C7_validate_no_side_effects_repeatable sample_heap 1%positive
              ctx_consistent sample_heap_represents)
    as (d1 & d2 & h1 & h2 & result & _ & _ & Hf1 & Hh1 & Hf2 & _ & Hkeep
        & Hr1 & Hr2 & Hres).
  exists d1, d2, h2, result.
  split.
  { intros ->. rewrite Hh1, heap_lookup_insert_eq in Hf2. discriminate. }
  split; [exact Hr1|]. split; [exact Hr2|]. split.
  - destruct (Hkeep 8%positive _ eq_refl) as [_ H2]. exact H2.
  - destruct (validate_flags ctx_consistent) as (d & Hd & _ & _ & F3).
    rewrite Hres in Hd. injection Hd as <-. rewrite F3.
    vm_compute. reflexivity.
Defined.
